(** * Product catalog: the serverless handler and the client state provider

    A shallow embedding of
    - [api/products.js]: the request handler that keeps the catalog as one
      JSON array in a blob store, and
    - [src/contexts/ProductContext.tsx]: the client-side list of products
      with its update and search operations,
    followed by the properties of the catalog contract.

    JavaScript values are modelled by the inductive type [value]; numbers are
    IEEE 754 binary64 values ([spec_float]); objects are finite maps from
    property names to values.  Exceptions are explicit: a computation that may
    throw returns a [result]. *)

From Stdlib Require Import ZArith Ascii String Floats.SpecFloat.
From stdpp Require Import base option list strings gmap pretty.


(** ** JavaScript values *)

Module Js.

(** A Number is a binary64 floating-point datum. *)
Definition number := spec_float.

Definition NaN : number := S754_nan.
Definition zero : number := S754_zero false.
Definition one : number := Eval cbv in binary_normalize 53 1024 1 0 false.

(** The Number an integer literal denotes: the integer, rounded to binary64. *)
Definition integer (n : Z) : number := binary_normalize 53 1024 n 0 false.

(** [Number.isFinite] on a Number. *)
Definition finite (n : number) : bool :=
  match n with
  | S754_zero _ | S754_finite _ _ _ => true
  | S754_infinity _ | S754_nan => false
  end.

(** The values a JSON request body, a stored snapshot and the handler's own
    object literals are made of.  Functions and symbols never occur: every
    value is parsed from JSON or built from such values. *)
#[warnings="-register-all"]
Inductive value :=
| VUndefined
| VNull
| VBool (b : bool)
| VNum (n : number)
| VStr (s : string)
| VArr (xs : list value)
| VObj (fields : gmap string value).

(** A thrown error, with its [message]. *)
Inductive exn := Exn (message : string).

Definition message (e : exn) : string := let 'Exn m := e in m.

(** Outcome of an expression that may throw. *)
Inductive result (A : Type) :=
| Ok (a : A)
| Throw (e : exn).
Arguments Ok {A} a.
Arguments Throw {A} e.

#[global] Instance result_ret : MRet result := @Ok.
#[global] Instance result_bind : MBind result := λ A B f r,
  match r with
  | Ok a => f a
  | Throw e => Throw e
  end.

(** [try { body } catch (err) { handler }] *)
Definition try_catch {A} (body : result A) (handler : exn → result A) : result A :=
  match body with
  | Ok a => Ok a
  | Throw err => handler err
  end.

(** The messages Node gives the two TypeErrors that can arise here. *)
Definition cannot_convert : exn := Exn "Cannot convert object to primitive value".
Definition cannot_read (what key : string) : exn :=
  Exn ("Cannot read properties of " +:+ what +:+ " (reading '" +:+ key +:+ "')").

(** Truthiness ([ToBoolean]). *)
Definition truthy (v : value) : bool :=
  match v with
  | VUndefined | VNull => false
  | VBool b => b
  | VNum (S754_zero _) | VNum S754_nan => false
  | VNum _ => true
  | VStr s => negb (String.eqb s "")
  | VArr _ | VObj _ => true
  end.

(** [a || b] *)
Definition or_else (a b : value) : value := if truthy a then a else b.

(** [typeof v] *)
Definition typeof (v : value) : string :=
  match v with
  | VUndefined => "undefined"
  | VNull => "object"
  | VBool _ => "boolean"
  | VNum _ => "number"
  | VStr _ => "string"
  | VArr _ | VObj _ => "object"
  end.

(** [Array.isArray(v)] *)
Definition isArray (v : value) : bool :=
  match v with VArr _ => true | _ => false end.

(** [Number.isFinite(v)]: no coercion, only a finite Number qualifies. *)
Definition Number_isFinite (v : value) : bool :=
  match v with VNum n => finite n | _ => false end.

(** [a === b].  The two operands of every comparison in the handler come from
    two different JSON documents (the request body and the stored blob), so
    two arrays or objects are never the same reference. *)
Definition strictEq (a b : value) : bool :=
  match a, b with
  | VUndefined, VUndefined => true
  | VNull, VNull => true
  | VBool x, VBool y => Bool.eqb x y
  | VNum x, VNum y => SFeqb x y
  | VStr x, VStr y => String.eqb x y
  | _, _ => false
  end.

(** [v.key] for the property names the program reads ([id], [name], [price],
    ...): none of them is [length], an index, or a member of a built-in
    prototype, so only an object can have it.  Reading a property of [null]
    or [undefined] throws. *)
Definition getProp (v : value) (key : string) : result value :=
  match v with
  | VUndefined => Throw (cannot_read "undefined" key)
  | VNull => Throw (cannot_read "null" key)
  | VObj fields => Ok (default VUndefined (fields !! key))
  | _ => Ok VUndefined
  end.

(** The own enumerable properties an object spread [{...v}] copies. *)
Definition ownProps (v : value) : gmap string value :=
  match v with
  | VObj fields => fields
  | VArr xs => list_to_map (imap (λ i x, (pretty i, x)) xs)
  | VStr s => list_to_map (imap (λ i c, (pretty i, VStr (String c ""))) (String.list_ascii_of_string s))
  | _ => ∅
  end.

(** [{ ...a, ...b }]: the properties of [b] overwrite those of [a]. *)
Definition spread (a b : value) : value := VObj (ownProps b ∪ ownProps a).

(** An object literal. *)
Definition obj (fields : list (string * value)) : value := VObj (list_to_map fields).

(** [JSON.parse(JSON.stringify(v))]: what is left of a value once it has been
    serialised.  A property whose value is [undefined] is dropped, an
    [undefined] array element and a non-finite number become [null], and
    negative zero loses its sign.  (No value here has a callable [toJSON].) *)
Fixpoint jsonify (v : value) : value :=
  match v with
  | VUndefined => VNull
  | VNum n =>
      match n with
      | S754_zero _ => VNum zero
      | S754_finite _ _ _ => VNum n
      | _ => VNull
      end
  | VArr xs => VArr (jsonify <$> xs)
  | VObj fields =>
      VObj (omap (λ x, match x with VUndefined => None | _ => Some (jsonify x) end) fields)
  | _ => v
  end.

(** The built-in conversions between text and numbers, and the Unicode
    lower-casing of a string, are those of the language.  They are not
    reimplemented: everything below holds for whatever they compute. *)
Class Builtins := {
  NumberToString : number → string;
  StringToNumber : string → number;
  toLowerCase : string → string
}.

Section Conversions.
Context `{!Builtins}.

(** [String(v)] ([ToString]).  An array is joined with commas, its [null]
    and [undefined] elements printing as nothing.  An object converts
    through [toString]/[valueOf]: a JSON object that has a property called
    [toString] hides the inherited method behind a non-callable value, so
    no method yields a primitive and the conversion throws; any other
    object prints as "[object Object]". *)
Fixpoint ToString (v : value) : result string :=
  match v with
  | VUndefined => Ok "undefined"
  | VNull => Ok "null"
  | VBool b => Ok (if b then "true" else "false")
  | VNum n => Ok (NumberToString n)
  | VStr s => Ok s
  | VArr xs =>
      (fix join (xs : list value) : result string :=
         match xs with
         | [] => Ok ""
         | x :: rest =>
             s ← match x with VUndefined | VNull => Ok "" | _ => ToString x end;
             match rest with
             | [] => Ok s
             | _ => r ← join rest; Ok (s +:+ "," +:+ r)
             end
         end) xs
  | VObj fields =>
      match fields !! "toString" with
      | Some _ => Throw cannot_convert
      | None => Ok "[object Object]"
      end
  end.

(** [Number(v)] ([ToNumber]); arrays and objects go through their string. *)
Definition ToNumber (v : value) : result number :=
  match v with
  | VUndefined => Ok NaN
  | VNull => Ok zero
  | VBool b => Ok (if b then one else zero)
  | VNum n => Ok n
  | VStr s => Ok (StringToNumber s)
  | VArr _ | VObj _ => s ← ToString v; Ok (StringToNumber s)
  end.
End Conversions.

(** [xs.findIndex(f)] and [xs.filter(f)] for a callback that may throw: the
    first exception ends the traversal. *)
Fixpoint findIndex_from (f : value → result bool) (xs : list value) (i : Z) : result Z :=
  match xs with
  | [] => Ok (-1)%Z
  | x :: rest => b ← f x; if b : bool then Ok i else findIndex_from f rest (i + 1)%Z
  end.

Definition Array_findIndex (f : value → result bool) (xs : list value) : result Z :=
  findIndex_from f xs 0%Z.

Fixpoint Array_filter (f : value → result bool) (xs : list value) : result (list value) :=
  match xs with
  | [] => Ok []
  | x :: rest =>
      b ← f x;
      kept ← Array_filter f rest;
      Ok (if b : bool then x :: kept else kept)
  end.

(** [xs[i]] *)
Definition index (xs : list value) (i : Z) : value :=
  if (i <? 0)%Z then VUndefined else default VUndefined (xs !! Z.to_nat i).

(** [n.toString()] for the integer number of milliseconds [Date.now()]
    returns: its decimal digits. *)
Definition Z_toString (n : Z) : string := pretty n.

(** The number of arrays and objects in a value, the measure for induction
    on values. *)
Fixpoint size (v : value) : nat :=
  match v with
  | VArr xs => S (foldr (λ x n, size x + n) 0 xs)
  | VObj fields => S (map_fold (λ _ x n, size x + n) 0 fields)
  | _ => 0
  end.

End Js.

(** ** The blob store

    The store is the external collaborator behind [@vercel/blob] and [fetch]:
    it lists objects by prefix, serves an object at its URL, and replaces a
    whole object on upload.  A state of the store says how each of these
    operations answers. *)

Module Blob.
Import Js.

Record blob := MkBlob { pathname : string; url : string }.

(** What [fetch(url)] resolves to: the [ok] flag and the outcome of parsing
    the body with [res.json()], which throws when the body is not JSON. *)
Record response := MkResponse { ok : bool; json : result value }.

Record store := MkStore {
  (** the objects in the store, or the error with which listing rejects *)
  objects : result (list blob);
  (** [fetch(url)]; a network failure rejects *)
  fetch : string → result response;
  (** the error with which an upload is rejected, if uploads are *)
  put_error : option exn;
  (** the address at which the store serves a pathname (no random suffix) *)
  public_url : string → string
}.

(** [list({ prefix })] *)
Definition list_blobs (prefix : string) (s : store) : result (list blob) :=
  blobs ← objects s;
  Ok (List.filter (λ b, String.prefix prefix (pathname b)) blobs).

(** [put(name, json, { access: 'public', addRandomSuffix: false })]: a
    rejected upload leaves the store as it is; an accepted one replaces the
    whole object of that name, which is then listed and served at its fixed
    address.  The JSON text is represented by the value it parses to. *)
Definition put (name : string) (json_body : value) (s : store) : result store :=
  match put_error s with
  | Some e => Throw e
  | None =>
      let others :=
        match objects s with
        | Ok blobs => List.filter (λ b, negb (String.eqb (pathname b) name)) blobs
        | Throw _ => []
        end in
      Ok {| objects := Ok (MkBlob name (public_url s name) :: others);
            fetch := λ u,
              if String.eqb u (public_url s name)
              then Ok (MkResponse true (Ok json_body))
              else fetch s u;
            put_error := None;
            public_url := public_url s |}
  end.

End Blob.

(** ** The handler, [api/products.js] *)

Module Api.
Import Js Blob.

Definition BLOB_NAME : string := "products.json".

Section Handler.
Context `{!Builtins}.

Definition readProductsFromBlob (s : store) : result (list value) :=
  try_catch
    (blobs ← list_blobs BLOB_NAME s;
     match List.find (λ b, String.eqb (pathname b) BLOB_NAME) blobs with
     | None => Ok []
     | Some found =>
         res ← fetch s (url found);
         if negb (ok res) then Ok []
         else
           data ← json res;
           Ok (match data with VArr xs => xs | _ => [] end)
     end)
    (λ err, Ok []).

(** [JSON.stringify(products)] is uploaded; the store then holds what that
    text parses to. *)
Definition writeProductsToBlob (products : list value) (s : store) : result store :=
  put BLOB_NAME (jsonify (VArr products)) s.

Record request := MkRequest { method : string; body : value }.

(** What the handler sends: the CORS headers, the status, and the value given
    to [json] (or nothing, for [end]). *)
Record reply := MkReply {
  headers : list (string * string);
  status : Z;
  payload : option value
}.

Definition cors : list (string * string) :=
  [ ("Access-Control-Allow-Origin", "*");
    ("Access-Control-Allow-Methods", "GET,POST,PUT,DELETE,OPTIONS");
    ("Access-Control-Allow-Headers", "Content-Type") ].

(** [res.status(code).json(v)] and [res.status(code).end()] *)
Definition send (code : Z) (v : value) : reply := MkReply cors code (Some v).
Definition send_end (code : Z) : reply := MkReply cors code None.

Definition error_body (msg : string) : value := obj [("error", VStr msg)].

(** The object literal of the POST branch; [now] is [Date.now()]. *)
Definition newProduct (now : Z) (body : value) : result value :=
  name ← getProp body "name";
  price ← (p ← getProp body "price"; ToNumber p);
  offerPrice ← (o ← getProp body "offerPrice";
                if truthy o then n ← ToNumber o; Ok (VNum n) else Ok VUndefined);
  images ← (i ← getProp body "images"; Ok (if isArray i then i else VArr []));
  category ← (c ← getProp body "category"; ToString c);
  description ← (d ← getProp body "description"; ToString (or_else d (VStr "")));
  stock ← (k ← getProp body "stock";
           if Number_isFinite k then ToNumber k else Ok zero);
  Ok (obj [ ("id", VStr (Z_toString now));
            ("name", name);
            ("price", VNum price);
            ("offerPrice", offerPrice);
            ("images", images);
            ("category", VStr category);
            ("description", VStr description);
            ("stock", VNum stock) ]).

(** The POST branch, entered with the snapshot just read. *)
Definition post_branch (now : Z) (products : list value) (req : request) (s : store)
  : result (reply * store) :=
  let body := or_else (body req) (obj []) in
  name ← getProp body "name";
  price ← getProp body "price";
  category ← getProp body "category";
  if negb (truthy name) || negb (truthy price) || negb (truthy category)
  then Ok (send 400 (error_body "Missing required fields"), s)
  else
    created ← newProduct now body;
    let next := products ++ [created] in
    s' ← writeProductsToBlob next s;
    Ok (send 201 created, s').

(** The PUT branch. *)
Definition put_branch (products : list value) (req : request) (s : store)
  : result (reply * store) :=
  let body := or_else (body req) (obj []) in
  id ← getProp body "id";
  updates ← getProp body "updates";
  if negb (truthy id) || negb (String.eqb (typeof updates) "object")
  then Ok (send 400 (error_body "id and updates are required"), s)
  else
    idx ← Array_findIndex (λ p, pid ← getProp p "id"; Ok (strictEq pid id)) products;
    if (idx =? -1)%Z then Ok (send 404 (error_body "Not found"), s)
    else
      let updated := spread (index products idx) updates in
      let next := <[Z.to_nat idx := updated]> products in
      s' ← writeProductsToBlob next s;
      Ok (send 200 updated, s').

(** The DELETE branch. *)
Definition delete_branch (products : list value) (req : request) (s : store)
  : result (reply * store) :=
  let body := or_else (body req) (obj []) in
  id ← getProp body "id";
  if negb (truthy id) then Ok (send 400 (error_body "id is required"), s)
  else
    next ← Array_filter (λ p, pid ← getProp p "id"; Ok (negb (strictEq pid id))) products;
    s' ← writeProductsToBlob next s;
    Ok (send 200 (obj [("ok", VBool true)]), s').

(** The body of the handler's [try] block. *)
Definition dispatch (req : request) (now : Z) (s : store) : result (reply * store) :=
  if String.eqb (method req) "GET" then
    products ← readProductsFromBlob s;
    Ok (send 200 (VArr products), s)
  else
    products ← readProductsFromBlob s;
    if String.eqb (method req) "POST" then post_branch now products req s
    else if String.eqb (method req) "PUT" then put_branch products req s
    else if String.eqb (method req) "DELETE" then delete_branch products req s
    else Ok (send 405 (error_body "Method Not Allowed"), s).

(** The [catch] clause.  Only a completed upload changes the store, so an
    exception is always caught in the store the request started from. *)
Definition catch_all (s : store) (outcome : result (reply * store)) : reply * store :=
  match outcome with
  | Ok done => done
  | Throw err =>
      let message := if String.eqb (message err) "" then "Internal Error" else message err in
      (send 500 (error_body message), s)
  end.

(** [handler(req, res)]: the reply and the store it leaves behind. *)
Definition handler (req : request) (now : Z) (s : store) : reply * store :=
  if String.eqb (method req) "OPTIONS" then (send_end 200, s)
  else catch_all s (dispatch req now s).

End Handler.
End Api.

(** ** The client state, [src/contexts/ProductContext.tsx] *)

Module Client.
Import Js.

(** Modelled from the spec: the [Product] interface, which the provider
    imports from [./CartContext]; its fields are those of the Data Model (and
    of the [initialProducts] literal in the provider). *)
Record Product := MkProduct {
  id : string;
  name : string;
  price : number;
  offerPrice : option number;
  images : list string;
  category : string;
  description : string;
  stock : number
}.

Definition initialProducts : list Product :=
  [ {| id := "1";
       name := "Silver Antique Set";
       price := integer 2899;
       offerPrice := Some (integer 2299);
       images := [ "/assets/silver-antique-set1.jpg";
                   "/assets/silver-antique-set2.jpg";
                   "/assets/silver-antique-set3.jpg" ];
       category := "necklaces";
       description := "Exquisite silver eternity featuring brilliant-cut jewels";
       stock := integer 5 |};
    {| id := "2";
       name := "Stone Necklace";
       price := integer 799;
       offerPrice := None;
       images := [ "/assets/stone-neck-blue.jpg";
                   "/assets/stone-neck-black.jpg";
                   "/assets/stone-neck-blue.jpg" ];
       category := "necklaces";
       description := "Classic blue necklace with cute Stones";
       stock := integer 15 |};
    {| id := "3";
       name := "Korean Stud";
       price := integer 3299;
       offerPrice := Some (integer 2799);
       images := [ "/assets/korean-stud1.jpg";
                   "/assets/korean-stud2.jpg";
                   "/assets/korean-stud3.jpg" ];
       category := "earrings";
       description := "Art deco inspired ruby ring with diamond accents";
       stock := integer 3 |} ].

(** [Partial<Product>]: each field is either left out or given a value of the
    field's type. *)
Record PartialProduct := MkPartial {
  new_id : option string;
  new_name : option string;
  new_price : option number;
  new_offerPrice : option (option number);
  new_images : option (list string);
  new_category : option string;
  new_description : option string;
  new_stock : option number
}.

(** [{ ...p, ...updates }] *)
Definition merge (p : Product) (updates : PartialProduct) : Product :=
  {| id := default (id p) (new_id updates);
     name := default (name p) (new_name updates);
     price := default (price p) (new_price updates);
     offerPrice := default (offerPrice p) (new_offerPrice updates);
     images := default (images p) (new_images updates);
     category := default (category p) (new_category updates);
     description := default (description p) (new_description updates);
     stock := default (stock p) (new_stock updates) |}.

(** The state update of [updateProduct(id, updates)]:
    [prev.map(p => (p.id === id ? { ...p, ...updates } : p))].  The PUT
    request sent afterwards is not awaited for its result and never touches
    the list. *)
Definition updateProduct (ident : string) (updates : PartialProduct)
    (prev : list Product) : list Product :=
  map (λ p, if String.eqb (id p) ident then merge p updates else p) prev.

(** [s.includes(sub)]: [sub] occurs somewhere in [s]. *)
Fixpoint includes (s sub : string) : bool :=
  String.prefix sub s ||
  match s with
  | EmptyString => false
  | String _ rest => includes rest sub
  end.

Section Search.
Context `{!Builtins}.

Definition searchProducts (products : list Product) (query : string) : list Product :=
  let lower := toLowerCase query in
  List.filter
    (λ product,
       includes (toLowerCase (name product)) lower ||
       includes (toLowerCase (description product)) lower ||
       includes (toLowerCase (category product)) lower)
    products.

End Search.

(** The state update of [deleteProduct(id)]:
    [prev.filter(p => p.id !== id)].  As for [updateProduct], the request
    sent afterwards never touches the list. *)
Definition deleteProduct (ident : string) (prev : list Product) : list Product :=
  List.filter (λ p, negb (String.eqb (id p) ident)) prev.

(** [products.find(product => product.id === id)] *)
Definition getProductById (products : list Product) (ident : string) : option Product :=
  List.find (λ product, String.eqb (id product) ident) products.

(** [products.filter(product => product.category === category)] *)
Definition getProductsByCategory (products : list Product) (wanted : string)
  : list Product :=
  List.filter (λ product, String.eqb (category product) wanted) products.

(** [Array.from(new Set(xs))]: the set is filled in the order of [xs], a
    value that is already in it is not added again, and the array lists the
    set in insertion order. *)
Definition Set_add (set : list string) (x : string) : list string :=
  if bool_decide (x ∈ set) then set else set ++ [x].

Definition Array_from_Set (xs : list string) : list string :=
  fold_left Set_add xs [].

(** [categories] *)
Definition categories (products : list Product) : list string :=
  Array_from_Set (map category products).

(** [Omit<Product, 'id'>], what [addProduct] is given. *)
Record ProductData := MkData {
  data_name : string;
  data_price : number;
  data_offerPrice : option number;
  data_images : list string;
  data_category : string;
  data_description : string;
  data_stock : number
}.

(** [{ ...productData, id }] *)
Definition with_id (productData : ProductData) (ident : string) : Product :=
  {| id := ident;
     name := data_name productData;
     price := data_price productData;
     offerPrice := data_offerPrice productData;
     images := data_images productData;
     category := data_category productData;
     description := data_description productData;
     stock := data_stock productData |}.

(** What the POST of [addProduct] resolves to: the [ok] flag of the response
    and the outcome of [res.json()], read as a [Product]. *)
Record answer := MkAnswer { answer_ok : bool; answer_json : result Product }.

(** The state update of [addProduct(productData)], given the outcome of the
    POST ([Throw] when [fetch] rejects) and [Date.now()].  The record of the
    server is appended when the response is ok and its body parses; in every
    other case a local record with a time-derived id is. *)
Definition addProduct (posted : result answer) (now : Z) (productData : ProductData)
    (prev : list Product) : list Product :=
  match
    try_catch
      (res ← posted;
       if answer_ok res then created ← answer_json res; Ok (Some created)
       else Ok None)
      (λ _, Ok None)
  with
  | Ok (Some created) => prev ++ [created]
  | _ => prev ++ [with_id productData (Z_toString now)]
  end.

End Client.

(** ** The provider's start-up, [ProductProvider]

    What the provider loads is untyped: the body of a response and the text
    in local storage are whatever JSON they hold.  The start-up is therefore
    modelled on [value]s; a product of the bundled catalog is the object it
    is at run time. *)

Module Provider.
Import Js Blob Client.

(** A [Product] literal as an object; an optional field that is left out is
    no property. *)
Definition product_value (p : Product) : value :=
  obj ([ ("id", VStr (id p)); ("name", VStr (name p)); ("price", VNum (price p)) ]
       ++ match offerPrice p with
          | Some n => [("offerPrice", VNum n)]
          | None => []
          end
       ++ [ ("images", VArr (VStr <$> images p));
            ("category", VStr (category p));
            ("description", VStr (description p));
            ("stock", VNum (stock p)) ]).

(** [initialProducts], as the array the state starts with. *)
Definition bundled : value := VArr (product_value <$> initialProducts).

(** What the page runs in: the build-time variable [VITE_API_BASE] (absent
    when not set) and what [fetch] answers at each address. *)
Record browser := MkBrowser {
  VITE_API_BASE : option string;
  fetch_url : string → result response
}.

(** The item ['nyrazari-products'] of local storage as [getItem] and
    [JSON.parse] see it: [None] when [getItem] returns a falsy value (no
    item, or empty text), otherwise the outcome of parsing the text. *)
Definition storage := option (result value).

(** The three pieces of state of the provider. *)
Record state := MkState {
  products : value;
  loadedFromServer : bool;
  apiBase : string
}.

(** [(import.meta as any).env?.VITE_API_BASE || '/api/products'] *)
Definition default_api (b : browser) : string :=
  match VITE_API_BASE b with
  | Some base => if String.eqb base "" then "/api/products" else base
  | None => "/api/products"
  end.

(** The state of the first render. *)
Definition initial_state (b : browser) : state :=
  {| products := bundled; loadedFromServer := false; apiBase := default_api b |}.

(** The first [try] of [load]: the [apiBase] of [/config.json], when the
    response is ok and its body has a non-empty string under that name. *)
Definition configured (b : browser) : option string :=
  match
    try_catch
      (cfgRes ← fetch_url b "/config.json";
       if ok cfgRes then
         cfg ← json cfgRes;
         if truthy cfg then
           base ← getProp cfg "apiBase";
           Ok (match base with
               | VStr text => if truthy base then Some text else None
               | _ => None
               end)
         else Ok None
       else Ok None)
      (λ _, Ok None)
  with
  | Ok found => found
  | Throw _ => None
  end.

(** The second [try] of [load]: the array the catalog address serves, when
    the response is ok, the effect is not cancelled and the body is a
    non-empty array.  The address is computed as for the first render, not
    read from the state. *)
Definition from_server (b : browser) (cancelled : bool) : option value :=
  match
    try_catch
      (res ← fetch_url b (default_api b);
       if ok res then
         data ← json res;
         Ok (match data with
             | VArr (_ :: _) => if negb cancelled then Some data else None
             | _ => None
             end)
       else Ok None)
      (λ _, Ok None)
  with
  | Ok found => found
  | Throw _ => None
  end.

(** [load()], run on the state [st]: [stored] is the item of local storage
    when [load] reads it, and the two flags say whether the effect was
    cancelled when the response of the server had been parsed and when local
    storage was read. *)
Definition load (b : browser) (stored : storage)
    (cancelled_fetch cancelled_restore : bool) (st : state) : state :=
  let base :=
    match configured b with
    | Some found => found
    | None => apiBase st
    end in
  match from_server b cancelled_fetch with
  | Some data => {| products := data; loadedFromServer := true; apiBase := base |}
  | None =>
      match stored with
      | Some parsed =>
          if negb cancelled_restore then
            {| products := match parsed with Ok v => v | Throw _ => bundled end;
               loadedFromServer := loadedFromServer st;
               apiBase := base |}
          else
            {| products := products st; loadedFromServer := loadedFromServer st;
               apiBase := base |}
      | None =>
          {| products := products st; loadedFromServer := loadedFromServer st;
             apiBase := base |}
      end
  end.

(** The persistence effect:
    [localStorage.setItem('nyrazari-products', JSON.stringify(products))].
    The item is then a text that parses to the serialised value; for
    [undefined], which has no JSON text, the text stored is "undefined" and
    does not parse. *)
Definition persist (current : value) : storage :=
  Some (match current with
        | VUndefined => Throw (Exn "Unexpected token")
        | _ => Ok (jsonify current)
        end).

(** Mounting the provider.  After the first render both effects run in the
    order in which they are declared: [load()] starts and is suspended at
    its first [await]; the persistence effect then stores the products of
    the first render; when [load] later reads local storage it finds that
    item, whatever the item was before ([previous]).  The persistence effect
    runs again on the products [load] leaves.  (No product is added, updated
    or deleted by the user while [load] is under way.) *)
Definition mount (b : browser) (previous : storage)
    (cancelled_fetch cancelled_restore : bool) : state * storage :=
  let first := initial_state b in
  let stored := persist (products first) in
  let loaded := load b stored cancelled_fetch cancelled_restore first in
  (loaded, persist (products loaded)).

(** The catalog address delivers no non-empty array: whenever the request
    is answered with an ok status, the body is something else (not JSON, not
    an array, or the empty array). *)
Definition serves_nothing (b : browser) : Prop :=
  ∀ res x xs, fetch_url b (default_api b) = Ok res → ok res = true →
    json res ≠ Ok (VArr (x :: xs)).

End Provider.

(** ** Built-ins for the worked examples

    The examples below need the built-in conversions to run.  This instance
    agrees with the language on what the examples feed it: decimal integer
    literals, integer-valued numbers, and ASCII text. *)

Module Ascii_builtins.
Import Js.

Definition digit (c : ascii) : option Z :=
  let n := Z.of_nat (nat_of_ascii c) in
  if ((48 <=? n) && (n <=? 57))%Z then Some (n - 48)%Z else None.

Fixpoint digits (s : string) (acc : Z) : option Z :=
  match s with
  | EmptyString => Some acc
  | String c rest => d ← digit c; digits rest (10 * acc + d)%Z
  end.

(** Text to number: the empty string is 0, a run of decimal digits with an
    optional sign is that integer rounded to binary64, and text that is no
    number is NaN.  (The language also reads fractions, exponents, other
    radixes and surrounding blanks; no example uses them, and this function
    takes them for NaN.) *)
Definition string_to_number (s : string) : number :=
  match s with
  | EmptyString => zero
  | String "-" (String _ _ as rest) =>
      from_option (λ n, binary_normalize 53 1024 (- n) 0 true) NaN (digits rest 0)
  | String "+" (String _ _ as rest) =>
      from_option (λ n, binary_normalize 53 1024 n 0 false) NaN (digits rest 0)
  | _ => from_option (λ n, binary_normalize 53 1024 n 0 false) NaN (digits s 0)
  end.

(** Number to text: an integer-valued number prints its decimal digits.  (No
    example prints a number with a fraction; this function would print its
    integer part.) *)
Definition number_to_string (n : number) : string :=
  match n with
  | S754_zero _ => "0"
  | S754_nan => "NaN"
  | S754_infinity false => "Infinity"
  | S754_infinity true => "-Infinity"
  | S754_finite sign m e =>
      let magnitude :=
        if (0 <=? e)%Z then (Z.pos m * 2 ^ e)%Z else (Z.pos m / 2 ^ (- e))%Z in
      pretty (if sign then (- magnitude)%Z else magnitude)
  end.

Definition lower_ascii (c : ascii) : ascii :=
  let n := nat_of_ascii c in
  if (65 <=? n)%nat && (n <=? 90)%nat then ascii_of_nat (n + 32) else c.

Fixpoint to_lower (s : string) : string :=
  match s with
  | EmptyString => EmptyString
  | String c rest => String (lower_ascii c) (to_lower rest)
  end.

#[export] Instance builtins : Builtins := {|
  NumberToString := number_to_string;
  StringToNumber := string_to_number;
  toLowerCase := to_lower
|}.

End Ascii_builtins.

(** ** Worked examples: stores, records and requests *)

Module Example.
Import Js Blob Api Ascii_builtins.

(** The number an integer literal denotes. *)
Definition num (n : Z) : value := VNum (integer n).

Definition address (name : string) : string := "https://catalog.blob.example/" +:+ name.

(** A store with no objects that accepts uploads. *)
Definition empty_store : store :=
  {| objects := Ok [];
     fetch := λ _, Ok (MkResponse false (Throw (Exn "Unexpected token")));
     put_error := None;
     public_url := address |}.

Definition ring : value :=
  obj [ ("id", VStr "1"); ("name", VStr "Ring"); ("price", num 799);
        ("images", VArr []); ("category", VStr "rings");
        ("description", VStr "Silver ring"); ("stock", num 5) ].

Definition stud : value :=
  obj [ ("id", VStr "2"); ("name", VStr "Stud"); ("price", num 3299);
        ("offerPrice", num 2799); ("images", VArr []); ("category", VStr "earrings");
        ("description", VStr "Korean stud"); ("stock", num 3) ].

(** A store whose blob holds the two records. *)
Definition stocked_store : store :=
  {| objects := Ok [MkBlob BLOB_NAME (address BLOB_NAME)];
     fetch := λ u,
       if String.eqb u (address BLOB_NAME)
       then Ok (MkResponse true (Ok (VArr [ring; stud])))
       else Ok (MkResponse false (Throw (Exn "Unexpected token")));
     put_error := None;
     public_url := address |}.

(** The store as the handler finds it when [BLOB_READ_WRITE_TOKEN] is not
    set: listing and uploading are both rejected. *)
Definition no_token : exn := Exn "Vercel Blob: No token found.".

Definition tokenless_store : store :=
  {| objects := Throw no_token;
     fetch := fetch stocked_store;
     put_error := Some no_token;
     public_url := address |}.

Definition get_request : request := MkRequest "GET" VUndefined.

(** A reading of the clock, in milliseconds since the epoch. *)
Definition instant : Z := 1700000000000.

(** The record that [post_bangle] below creates at that instant. *)
Definition bangle : value :=
  obj [ ("id", VStr "1700000000000"); ("name", VStr "Bangle"); ("price", num 1299);
        ("offerPrice", VUndefined); ("images", VArr []); ("category", VStr "bangles");
        ("description", VStr ""); ("stock", num 4) ].

(** POST { name: "Bangle", price: "1299", category: "bangles", stock: 4 } *)
Definition post_bangle : request :=
  MkRequest "POST"
    (obj [ ("name", VStr "Bangle"); ("price", VStr "1299");
           ("category", VStr "bangles"); ("stock", num 4) ]).

(** POST { name: "Bangle", price: "1299", category: "bangles", stock: "4" } *)
Definition post_text_stock : request :=
  MkRequest "POST"
    (obj [ ("name", VStr "Bangle"); ("price", VStr "1299");
           ("category", VStr "bangles"); ("stock", VStr "4") ]).

(** POST { name: "Bangle", price: 1299, category: { toString: null } } *)
Definition post_odd_category : request :=
  MkRequest "POST"
    (obj [ ("name", VStr "Bangle"); ("price", num 1299);
           ("category", obj [("toString", VNull)]) ]).

(** POST { name: "Bangle", price: 0, category: "bangles" } *)
Definition post_free : request :=
  MkRequest "POST"
    (obj [ ("name", VStr "Bangle"); ("price", num 0); ("category", VStr "bangles") ]).

(** PUT { id: "1", updates: { price: 699 } } *)
Definition put_price : request :=
  MkRequest "PUT" (obj [ ("id", VStr "1"); ("updates", obj [("price", num 699)]) ]).

(** PUT { id: "1", updates: "gold" } *)
Definition put_text : request :=
  MkRequest "PUT" (obj [ ("id", VStr "1"); ("updates", VStr "gold") ]).

(** PUT { id: "1", updates: null } *)
Definition put_null : request :=
  MkRequest "PUT" (obj [ ("id", VStr "1"); ("updates", VNull) ]).

(** PUT { id: "1", updates: { id: "9" } } *)
Definition put_new_id : request :=
  MkRequest "PUT" (obj [ ("id", VStr "1"); ("updates", obj [("id", VStr "9")]) ]).

(** The third of the initial products. *)
Definition korean_stud : Client.Product :=
  {| Client.id := "3";
     Client.name := "Korean Stud";
     Client.price := integer 3299;
     Client.offerPrice := Some (integer 2799);
     Client.images := [ "/assets/korean-stud1.jpg";
                        "/assets/korean-stud2.jpg";
                        "/assets/korean-stud3.jpg" ];
     Client.category := "earrings";
     Client.description := "Art deco inspired ruby ring with diamond accents";
     Client.stock := integer 3 |}.

(** The client update [{ stock: 0 }]. *)
Definition sold_out : Client.PartialProduct :=
  {| Client.new_id := None; Client.new_name := None; Client.new_price := None;
     Client.new_offerPrice := None; Client.new_images := None;
     Client.new_category := None; Client.new_description := None;
     Client.new_stock := Some zero |}.

(** DELETE { id: "1" } and DELETE { id: "7" } *)
Definition delete_ring : request := MkRequest "DELETE" (obj [("id", VStr "1")]).
Definition delete_absent : request := MkRequest "DELETE" (obj [("id", VStr "7")]).

(** A store that lists a backup copy before the catalog itself; only the
    catalog's address serves the two records. *)
Definition crowded_store : store :=
  {| objects := Ok [ MkBlob "products.json.bak" (address "products.json.bak");
                     MkBlob BLOB_NAME (address BLOB_NAME) ];
     fetch := fetch stocked_store;
     put_error := None;
     public_url := address |}.

(** A page without network: every request is rejected. *)
Definition offline : Provider.browser :=
  {| Provider.VITE_API_BASE := None;
     Provider.fetch_url := λ _, Throw (Exn "Failed to fetch") |}.

(** A page whose [/config.json] names another API base, while the default
    address serves the two records. *)
Definition configured_page : Provider.browser :=
  {| Provider.VITE_API_BASE := None;
     Provider.fetch_url := λ u,
       if String.eqb u "/config.json"
       then Ok (MkResponse true
                  (Ok (obj [("apiBase", VStr "https://api.example/products")])))
       else if String.eqb u "/api/products"
       then Ok (MkResponse true (Ok (VArr [ring; stud])))
       else Throw (Exn "Failed to fetch") |}.

(** The same page without the configuration file. *)
Definition plain_page : Provider.browser :=
  {| Provider.VITE_API_BASE := None;
     Provider.fetch_url := λ u,
       if String.eqb u "/api/products"
       then Ok (MkResponse true (Ok (VArr [ring; stud])))
       else Throw (Exn "Failed to fetch") |}.

(** A request whose method is spelt in lower case, a DELETE without a body,
    and the DELETE of the id that [post_bangle] is given at [instant]. *)
Definition lowercase_get : request := MkRequest "get" VUndefined.
Definition delete_nothing : request := MkRequest "DELETE" VUndefined.
Definition delete_bangle : request :=
  MkRequest "DELETE" (obj [("id", VStr "1700000000000")]).

End Example.

(** ** Vocabulary of the statements *)

Module Spec.
Import Js Blob Api.

(** The value a request body gives a field: that of the property when the
    body is an object that has it, [undefined] otherwise. *)
Definition field (body : value) (key : string) : value :=
  match body with
  | VObj fields => default VUndefined (fields !! key)
  | _ => VUndefined
  end.

(** The body supplies a truthy value for the field. *)
Definition supplies (body : value) (key : string) : Prop :=
  truthy (field body key) = true.

(** [String(v)] returns: converting the value does not throw. *)
Definition converts `{!Builtins} (v : value) : Prop :=
  ∃ text, ToString v = Ok text.

(** [null] and [undefined], the two values without properties. *)
Definition nullish (v : value) : bool :=
  match v with VUndefined | VNull => true | _ => false end.

(** The stored element is a record: an object. *)
Definition is_record (v : value) : Prop := ∃ fields, v = VObj fields.

(** The stored element is a record whose id is [ident]. *)
Definition has_id (ident : value) (p : value) : Prop :=
  strictEq (field p "id") ident = true.

#[global] Instance has_id_dec ident p : Decision (has_id ident p).
Proof. unfold has_id. apply _. Defined.

(** The object at the well-known key: the first one listed under exactly
    that pathname. *)
Definition stored_blob (s : store) (b : blob) : Prop :=
  ∃ blobs i, objects s = Ok blobs ∧
    list_find (λ b, pathname b = BLOB_NAME) blobs = Some (i, b).

(** The ways in which the store can fail to give back a JSON array: listing
    rejects; no object has the pathname; fetching the object rejects or is
    answered with a status that is not ok; the body is not JSON; the body is
    JSON but not an array. *)
Inductive unreadable (s : store) : Prop :=
| listing_rejects (e : exn) :
    objects s = Throw e → unreadable s
| blob_absent (blobs : list blob) :
    objects s = Ok blobs →
    Forall (λ b, pathname b ≠ BLOB_NAME) blobs → unreadable s
| fetch_rejects (b : blob) (e : exn) :
    stored_blob s b → fetch s (url b) = Throw e → unreadable s
| response_not_ok (b : blob) (res : response) :
    stored_blob s b → fetch s (url b) = Ok res → ok res = false → unreadable s
| body_not_json (b : blob) (res : response) (e : exn) :
    stored_blob s b → fetch s (url b) = Ok res → json res = Throw e → unreadable s
| body_not_array (b : blob) (res : response) (data : value) :
    stored_blob s b → fetch s (url b) = Ok res → json res = Ok data →
    isArray data = false → unreadable s.

(** [sub] occurs in [s]: [s] is some text, then [sub], then some text. *)
Definition occurs_in (sub s : string) : Prop :=
  ∃ before after, s = before +:+ sub +:+ after.

(** The lower-cased query occurs in the lower-cased name, description or
    category of the product. *)
Definition matches `{!Builtins} (query : string) (p : Client.Product) : Prop :=
  occurs_in (toLowerCase query) (toLowerCase (Client.name p)) ∨
  occurs_in (toLowerCase query) (toLowerCase (Client.description p)) ∨
  occurs_in (toLowerCase query) (toLowerCase (Client.category p)).

(** [selected P xs ys]: [ys] is [xs] with exactly the elements that satisfy
    [P] kept, each as often and in the order in which it stands in [xs]. *)
Inductive selected {A} (P : A → Prop) : list A → list A → Prop :=
| selected_nil : selected P [] []
| selected_keep (x : A) (xs ys : list A) :
    P x → selected P xs ys → selected P (x :: xs) (x :: ys)
| selected_skip (x : A) (xs ys : list A) :
    ¬ P x → selected P xs ys → selected P (x :: xs) ys.

End Spec.

(** ** Properties of the built-in operations *)

Section Js_facts.
Import Js Spec.

Lemma pretty_N_go_length (x : N) (s : string) :
  String.length s ≤ String.length (pretty_N_go x s).
Proof.
  revert s. induction (N.lt_wf_0 x) as [x _ IH]. intros s.
  destruct (decide (x = 0)%N) as [->|Hx].
  - rewrite pretty_N_go_0. lia.
  - rewrite pretty_N_go_step by lia.
    specialize (IH (x `div` 10)%N).
    transitivity (String.length (String (pretty_N_char (x `mod` 10)) s)).
    + simpl. lia.
    + apply IH. apply N.div_lt; lia.
Qed.

Lemma pretty_N_nonempty (x : N) : pretty x ≠ "".
Proof.
  unfold pretty, pretty_N. destruct (decide (x = 0)%N) as [->|Hx]; [done|].
  rewrite pretty_N_go_step by lia. intros Heq.
  pose proof (pretty_N_go_length (x `div` 10)%N
                (String (pretty_N_char (x `mod` 10)) "")) as Hlen.
  rewrite Heq in Hlen. simpl in Hlen. lia.
Qed.

(** The decimal text of an integer is never empty. *)
Lemma Z_toString_nonempty (n : Z) : Z_toString n ≠ "".
Proof.
  unfold Z_toString, pretty, pretty_Z. destruct n as [|p|p]; [done| |done].
  apply pretty_N_nonempty.
Qed.

Lemma getProp_field (v : value) (key : string) :
  nullish v = false → getProp v key = Ok (field v key).
Proof. by destruct v. Qed.

(** [(req.body || {}).key] never throws and reads the field of the body. *)
Lemma getProp_body (body : value) (key : string) :
  getProp (or_else body (obj [])) key = Ok (field body key).
Proof.
  unfold or_else. destruct (truthy body) eqn:Htruthy.
  - apply getProp_field. by destruct body.
  - replace (field body key) with VUndefined; [done|]. by destruct body.
Qed.

Lemma supplies_object (body : value) (key : string) :
  supplies body key → ∃ fields, body = VObj fields.
Proof. unfold supplies. destruct body; try done. by eexists. Qed.

End Js_facts.

(** ** Reading and writing the snapshot *)

Section Store_facts.
Import Js Blob Api Spec.
Context `{!Builtins}.

(** Whatever the store answers, the read returns a list. *)
Lemma read_total (s : store) : ∃ products, readProductsFromBlob s = Ok products.
Proof.
  unfold readProductsFromBlob, try_catch.
  destruct (list_blobs BLOB_NAME s) as [blobs|e]; simpl; [|by eexists].
  destruct (find _ blobs) as [found|]; [|by eexists].
  destruct (fetch s (url found)) as [res|e]; simpl; [|by eexists].
  destruct (ok res); simpl; [|by eexists].
  destruct (json res) as [data|e]; simpl; by eexists.
Qed.

Lemma write_accepted (products : list value) (s : store) :
  put_error s = None → ∃ s', writeProductsToBlob products s = Ok s'.
Proof. intros Hput. unfold writeProductsToBlob, put. rewrite Hput. by eexists. Qed.

(** A completed write is what the next read returns, as serialised. *)
Lemma read_after_write (products : list value) (s s' : store) :
  writeProductsToBlob products s = Ok s' →
  readProductsFromBlob s' = Ok (jsonify <$> products).
Proof.
  unfold writeProductsToBlob, put. destruct (put_error s); [done|].
  intros [= <-]. unfold readProductsFromBlob, list_blobs. simpl.
  by rewrite String.eqb_refl.
Qed.

(** The GET branch: status 200 with the snapshot read, the store untouched. *)
Lemma get_reads (req : request) (now : Z) (s : store) (products : list value) :
  method req = "GET" →
  readProductsFromBlob s = Ok products →
  handler req now s = (send 200 (VArr products), s).
Proof.
  intros Hmethod Hread. unfold handler, dispatch. rewrite Hmethod. simpl.
  by rewrite Hread.
Qed.

End Store_facts.

(** ** POST *)

Section Post_facts.
Import Js Blob Api Spec.
Context `{!Builtins}.

Lemma handler_post (req : request) (now : Z) (s : store) (products : list value) :
  method req = "POST" →
  readProductsFromBlob s = Ok products →
  handler req now s = catch_all s (post_branch now products req s).
Proof.
  intros Hmethod Hread. unfold handler, dispatch. rewrite Hmethod. simpl.
  by rewrite Hread.
Qed.

(** The validation of the POST branch, in terms of the fields of the body. *)
Lemma post_unfold (now : Z) (products : list value) (req : request) (s : store) :
  post_branch now products req s =
    if negb (truthy (field (body req) "name"))
       || negb (truthy (field (body req) "price"))
       || negb (truthy (field (body req) "category"))
    then Ok (send 400 (error_body "Missing required fields"), s)
    else
      created ← newProduct now (or_else (body req) (obj []));
      s' ← writeProductsToBlob (products ++ [created]) s;
      Ok (send 201 created, s').
Proof. unfold post_branch. by rewrite !getProp_body. Qed.

(** The fields of the record literal. *)
Lemma newProduct_unfold (now : Z) (body : value) :
  newProduct now (or_else body (obj [])) =
    price ← ToNumber (field body "price");
    offerPrice ← (if truthy (field body "offerPrice")
                  then n ← ToNumber (field body "offerPrice"); Ok (VNum n)
                  else Ok VUndefined);
    category ← ToString (field body "category");
    description ← ToString (or_else (field body "description") (VStr ""));
    stock ← (if Number_isFinite (field body "stock")
             then ToNumber (field body "stock") else Ok zero);
    Ok (obj [ ("id", VStr (Z_toString now));
              ("name", field body "name");
              ("price", VNum price);
              ("offerPrice", offerPrice);
              ("images", if isArray (field body "images")
                         then field body "images" else VArr []);
              ("category", VStr category);
              ("description", VStr description);
              ("stock", VNum stock) ]).
Proof. unfold newProduct. by rewrite !getProp_body. Qed.

Lemma record_fields (a b c d e f g h : value) :
  ∃ fields,
    obj [ ("id", a); ("name", b); ("price", c); ("offerPrice", d);
          ("images", e); ("category", f); ("description", g); ("stock", h) ]
      = VObj fields ∧
    fields !! "id" = Some a ∧ fields !! "name" = Some b ∧
    fields !! "price" = Some c ∧ fields !! "offerPrice" = Some d ∧
    fields !! "images" = Some e ∧ fields !! "category" = Some f ∧
    fields !! "description" = Some g ∧ fields !! "stock" = Some h.
Proof. eexists. split; [reflexivity|]. vm_compute. done. Qed.

End Post_facts.

Section Post_record.
Import Js Blob Api Spec.
Context `{!Builtins}.

(** [body.stock] as the record keeps it. *)
Lemma stock_coercion (k : value) :
  (if Number_isFinite k then ToNumber k else Ok zero) =
  Ok (match k with VNum n => if finite n then n else zero | _ => zero end).
Proof. destruct k as [| | |n| | |]; try done. simpl. by destruct (finite n). Qed.

(** When the record literal evaluates, every coercion in it has returned. *)
Lemma newProduct_inv (now : Z) (body created : value) :
  newProduct now (or_else body (obj [])) = Ok created →
  ∃ price offerPrice category description,
    ToNumber (field body "price") = Ok price ∧
    (if truthy (field body "offerPrice")
     then ∃ n, ToNumber (field body "offerPrice") = Ok n ∧ offerPrice = VNum n
     else offerPrice = VUndefined) ∧
    ToString (field body "category") = Ok category ∧
    ToString (or_else (field body "description") (VStr "")) = Ok description ∧
    created =
      obj [ ("id", VStr (Z_toString now));
            ("name", field body "name");
            ("price", VNum price);
            ("offerPrice", offerPrice);
            ("images", if isArray (field body "images")
                       then field body "images" else VArr []);
            ("category", VStr category);
            ("description", VStr description);
            ("stock", VNum (match field body "stock" with
                            | VNum n => if finite n then n else zero
                            | _ => zero
                            end)) ].
Proof.
  rewrite newProduct_unfold, stock_coercion.
  destruct (ToNumber (field body "price")) as [price|]; [simpl|done].
  destruct (truthy (field body "offerPrice")).
  - destruct (ToNumber (field body "offerPrice")) as [n|]; [simpl|done].
    destruct (ToString (field body "category")) as [category|]; [simpl|done].
    destruct (ToString (or_else _ _)) as [description|]; [simpl|done].
    intros [= <-]. exists price, (VNum n), category, description. eauto 10.
  - simpl.
    destruct (ToString (field body "category")) as [category|]; [simpl|done].
    destruct (ToString (or_else _ _)) as [description|]; [simpl|done].
    intros [= <-]. exists price, VUndefined, category, description. eauto 10.
Qed.

(** The same, with the record seen as the map of its properties. *)
Lemma newProduct_fields (now : Z) (body created : value) :
  newProduct now (or_else body (obj [])) = Ok created →
  ∃ price offerPrice category description fields,
    created = VObj fields ∧
    ToNumber (field body "price") = Ok price ∧
    (if truthy (field body "offerPrice")
     then ∃ n, ToNumber (field body "offerPrice") = Ok n ∧ offerPrice = VNum n
     else offerPrice = VUndefined) ∧
    fields !! "id" = Some (VStr (Z_toString now)) ∧
    fields !! "name" = Some (field body "name") ∧
    fields !! "price" = Some (VNum price) ∧
    fields !! "offerPrice" = Some offerPrice ∧
    fields !! "images" =
      Some (if isArray (field body "images") then field body "images" else VArr []) ∧
    fields !! "category" = Some (VStr category) ∧
    fields !! "description" = Some (VStr description) ∧
    fields !! "stock" =
      Some (VNum (match field body "stock" with
                  | VNum n => if finite n then n else zero
                  | _ => zero
                  end)).
Proof.
  intros Hlit.
  destruct (newProduct_inv _ _ _ Hlit)
    as (price & offerPrice & category & description & Hprice & Hoffer & _ & _ & ->).
  edestruct record_fields as (fields & -> & Hfields).
  exists price, offerPrice, category, description, fields.
  split; [done|]. split; [done|]. split; [done|]. exact Hfields.
Qed.

(** Serialising an object keeps a property whose value is a string. *)
Lemma jsonify_keeps_string (created : value) (key text : string) :
  ownProps created !! key = Some (VStr text) →
  (∃ fields, created = VObj fields) →
  field (jsonify created) key = VStr text.
Proof.
  intros Hkey [fields ->]. simpl in *. by rewrite lookup_omap, Hkey.
Qed.

(** A value that converts to a string converts to a number. *)
Lemma ToNumber_converts (v : value) :
  converts v → ∃ n, ToNumber v = Ok n.
Proof.
  intros [text Htext]. destruct v; simpl in *; try (by eexists).
  all: rewrite Htext; by eexists.
Qed.

Lemma converts_or_empty (v : value) :
  converts v → converts (or_else v (VStr "")).
Proof.
  intros Hv. unfold or_else. destruct (truthy v); [done|]. by exists "".
Qed.

(** The record literal evaluates when none of its four coercions throws. *)
Lemma newProduct_total (now : Z) (body : value) :
  converts (field body "price") →
  converts (field body "offerPrice") →
  converts (field body "category") →
  converts (field body "description") →
  ∃ created, newProduct now (or_else body (obj [])) = Ok created.
Proof.
  intros [price Hprice]%ToNumber_converts [offer Hoffer]%ToNumber_converts
    [category Hcategory] [description Hdescription]%converts_or_empty.
  rewrite newProduct_unfold, stock_coercion, Hprice, Hoffer, Hcategory, Hdescription.
  simpl. destruct (truthy (field body "offerPrice")); simpl; by eexists.
Qed.

End Post_record.

(** ** The catalog contract: POST *)

Section Post_contract.
Import Js Blob Api Spec.
Context `{!Builtins}.

(** C1, as amended.  A POST whose body supplies truthy [name], [price] and
    [category], none of whose [price], [offerPrice], [category] and
    [description] throws when converted, and whose upload the store accepts,
    is answered 201 with the created record; the record's id is the
    non-empty decimal text of the time; the snapshot uploaded is the snapshot
    read with that record appended at the end; and a later read or GET
    returns it, serialised, with the record last. *)
Theorem post_creates_record (req : request) (now : Z) (s : store)
    (products : list value) :
  method req = "POST" →
  supplies (body req) "name" →
  supplies (body req) "price" →
  supplies (body req) "category" →
  converts (field (body req) "price") →
  converts (field (body req) "offerPrice") →
  converts (field (body req) "category") →
  converts (field (body req) "description") →
  readProductsFromBlob s = Ok products →
  put_error s = None →
  ∃ created s',
    handler req now s = (send 201 created, s') ∧
    field created "id" = VStr (Z_toString now) ∧
    Z_toString now ≠ "" ∧
    writeProductsToBlob (products ++ [created]) s = Ok s' ∧
    readProductsFromBlob s' = Ok ((jsonify <$> products) ++ [jsonify created]) ∧
    field (jsonify created) "id" = VStr (Z_toString now) ∧
    ∀ get later, method get = "GET" →
      handler get later s' =
        (send 200 (VArr ((jsonify <$> products) ++ [jsonify created])), s').
Proof.
  intros Hmethod Hname Hprice Hcategory Hcp Hco Hcc Hcd Hread Hput.
  destruct (newProduct_total now (body req) Hcp Hco Hcc Hcd) as [created Hlit].
  destruct (write_accepted (products ++ [created]) s Hput) as [s' Hwrite].
  pose proof (read_after_write _ _ _ Hwrite) as Hreread.
  rewrite fmap_app in Hreread. simpl in Hreread.
  destruct (newProduct_fields _ _ _ Hlit)
    as (price & offerPrice & category & description & fields & -> & _ & _ & Hid & _).
  exists (VObj fields), s'. split_and!.
  - rewrite (handler_post _ _ _ _ Hmethod Hread), post_unfold.
    unfold supplies in *. rewrite Hname, Hprice, Hcategory. simpl.
    rewrite Hlit. simpl. by rewrite Hwrite.
  - simpl. by rewrite Hid.
  - apply Z_toString_nonempty.
  - done.
  - done.
  - apply jsonify_keeps_string; [done|]. by eexists.
  - intros get later Hget. by apply get_reads.
Qed.

(** C2.  A POST whose body leaves out, or gives a falsy value for, [name],
    [price] or [category] is answered 400, and the store is the one the
    request found: nothing is uploaded. *)
Theorem post_missing_field_rejected (req : request) (now : Z) (s : store) :
  method req = "POST" →
  ¬ supplies (body req) "name" ∨ ¬ supplies (body req) "price"
    ∨ ¬ supplies (body req) "category" →
  handler req now s = (send 400 (error_body "Missing required fields"), s).
Proof.
  intros Hmethod Hmissing.
  destruct (read_total s) as [products Hread].
  rewrite (handler_post _ _ _ _ Hmethod Hread), post_unfold.
  assert (negb (truthy (field (body req) "name"))
          || negb (truthy (field (body req) "price"))
          || negb (truthy (field (body req) "category")) = true) as ->; [|done].
  unfold supplies in Hmissing.
  destruct Hmissing as [Hm|[Hm|Hm]]; apply not_true_is_false in Hm;
    rewrite Hm; simpl; by rewrite ?orb_true_r.
Qed.

(** The fields of a created record.  Whenever a POST is answered 201, the
    record carries [Number(body.price)] as its price; [Number(body.offerPrice)]
    as its offer price when the body gives a truthy one and [undefined]
    otherwise (a property that serialisation then leaves out); [body.images]
    as its images when that is an array and the empty array otherwise; and,
    as its stock, [body.stock] when that is already a finite number and 0 in
    every other case: the finiteness test comes before the conversion, so no
    other value is ever converted. *)
Lemma post_coerces_fields (req : request) (now : Z) (s : store) :
  method req = "POST" →
  status (handler req now s).1 = 201%Z →
  ∃ created,
    payload (handler req now s).1 = Some created ∧
    (∃ n, ToNumber (field (body req) "price") = Ok n ∧
          field created "price" = VNum n) ∧
    (if truthy (field (body req) "offerPrice")
     then ∃ n, ToNumber (field (body req) "offerPrice") = Ok n ∧
               field created "offerPrice" = VNum n
     else field created "offerPrice" = VUndefined ∧
          ownProps (jsonify created) !! "offerPrice" = None) ∧
    field created "stock" =
      VNum (match field (body req) "stock" with
            | VNum n => if finite n then n else zero
            | _ => zero
            end) ∧
    field created "images" =
      match field (body req) "images" with
      | VArr xs => VArr xs
      | _ => VArr []
      end.
Proof.
  intros Hmethod.
  destruct (read_total s) as [products Hread].
  rewrite (handler_post _ _ _ _ Hmethod Hread), post_unfold.
  destruct (negb _ || negb _ || negb _); [done|].
  destruct (newProduct now _) as [created|e] eqn:Hlit; [simpl|done].
  destruct (writeProductsToBlob _ s) as [s'|e]; [simpl|done].
  intros _. exists created. split; [done|].
  destruct (newProduct_fields _ _ _ Hlit)
    as (price & offerPrice & category & description & fields & -> & Hprice & Hoffer
        & _ & _ & Hp & Ho & Hi & _ & _ & Hs).
  simpl. rewrite Hp, Ho, Hi, Hs, lookup_omap, Ho. simpl.
  split_and!.
  - by exists price.
  - destruct (truthy (field (body req) "offerPrice")).
    + destruct Hoffer as (n & Hn & ->). by exists n.
    + by subst offerPrice.
  - done.
  - by destruct (field (body req) "images").
Qed.

End Post_contract.

Section Post_examples.
Import Js Blob Api Spec Ascii_builtins Example.

(** The theorem at work: a bangle is posted to the empty store. *)
Lemma post_creates_record_witness :
  ∃ s', handler post_bangle instant empty_store = (send 201 bangle, s') ∧
        readProductsFromBlob s' = Ok [jsonify bangle] ∧
        field (jsonify bangle) "id" = VStr "1700000000000".
Proof.
  destruct (post_creates_record post_bangle instant empty_store [])
    as (created & s' & Hreply & _ & _ & _ & Hread & Hid & _);
    [reflexivity | reflexivity | reflexivity | reflexivity
    | by eexists | by eexists | by eexists | by eexists
    | reflexivity | reflexivity |].
  assert (created = bangle) as ->.
  { vm_compute in Hreply. by injection Hreply as <-. }
  exists s'. split; [exact Hreply|]. split; [exact Hread|exact Hid].
Defined.

(** C1 does not hold as stated: this body supplies the three fields, yet
    [String(body.category)] throws, the handler answers 500 and nothing is
    stored. *)
Lemma post_odd_category_fails :
  supplies (body post_odd_category) "name" ∧
  supplies (body post_odd_category) "price" ∧
  supplies (body post_odd_category) "category" ∧
  handler post_odd_category instant empty_store =
    (send 500 (error_body "Cannot convert object to primitive value"), empty_store).
Proof. vm_compute. done. Qed.

(** The theorem at work: a price of 0 is falsy. *)
Lemma post_missing_field_rejected_witness :
  handler post_free instant stocked_store =
    (send 400 (error_body "Missing required fields"), stocked_store).
Proof.
  apply (post_missing_field_rejected post_free instant stocked_store).
  - reflexivity.
  - right. left. vm_compute. discriminate.
Defined.

(** C8 is not met by the code: the stock "4" converts to the finite number
    4, as the price "1299" converts to 1299, yet the record created has the
    stock 0, because [Number.isFinite] is asked about the text, not about
    the number it converts to. *)
Lemma post_text_stock_dropped :
  ToNumber (field (body post_text_stock) "stock") = Ok (integer 4) ∧
  finite (integer 4) = true ∧
  ∃ created s',
    handler post_text_stock instant empty_store = (send 201 created, s') ∧
    field created "price" = num 1299 ∧
    field created "stock" = VNum zero.
Proof.
  split; [reflexivity|]. split; [reflexivity|].
  do 2 eexists. split; [vm_compute; reflexivity|]. split; reflexivity.
Qed.

(** The lemma at work on the bangle, whose stock is the number 4. *)
Lemma post_coerces_fields_witness :
  ∃ created,
    payload (handler post_bangle instant empty_store).1 = Some created ∧
    field created "price" = num 1299 ∧
    field created "offerPrice" = VUndefined ∧
    field created "stock" = num 4 ∧
    field created "images" = VArr [].
Proof.
  destruct (post_coerces_fields post_bangle instant empty_store)
    as (created & Hpayload & (n & Hn & Hprice) & [Hoffer _] & Hstock & Himages);
    [reflexivity | vm_compute; reflexivity |].
  exists created. split; [exact Hpayload|].
  vm_compute in Hn. injection Hn as <-.
  split; [exact Hprice|]. split; [exact Hoffer|]. split; [exact Hstock|exact Himages].
Defined.

End Post_examples.

(** ** Locating and removing records by id *)

Section Lookup_facts.
Import Js Spec.

(** The callback of [findIndex]: [p => p.id === id]. *)
Lemma same_id_record (ident p : value) :
  nullish p = false →
  (pid ← getProp p "id"; Ok (strictEq pid ident)) = Ok (bool_decide (has_id ident p)).
Proof.
  intros Hp. rewrite (getProp_field _ _ Hp). simpl. f_equal.
  destruct (strictEq (field p "id") ident) eqn:Heq; symmetry.
  - by apply bool_decide_eq_true_2.
  - apply bool_decide_eq_false_2. unfold has_id. by rewrite Heq.
Qed.

(** The callback of [filter]: [p => p.id !== id]. *)
Lemma other_id_record (ident p : value) :
  nullish p = false →
  (pid ← getProp p "id"; Ok (negb (strictEq pid ident)))
    = Ok (bool_decide (¬ has_id ident p)).
Proof.
  intros Hp. rewrite (getProp_field _ _ Hp). simpl. f_equal.
  destruct (strictEq (field p "id") ident) eqn:Heq; simpl; symmetry.
  - apply bool_decide_eq_false_2. unfold has_id. rewrite Heq. by intros [].
  - apply bool_decide_eq_true_2. unfold has_id. by rewrite Heq.
Qed.

(** A record that has a truthy id is an object that owns it. *)
Lemma has_id_object (ident p : value) :
  truthy ident = true → has_id ident p →
  ∃ fields pid, p = VObj fields ∧ fields !! "id" = Some pid ∧ strictEq pid ident = true.
Proof.
  unfold has_id. intros Htruthy Hid.
  destruct p as [| | | | | |fields]; try by destruct ident.
  simpl in Hid. destruct (fields !! "id") as [pid|] eqn:Hpid.
  - by exists fields, pid.
  - by destruct ident.
Qed.

Lemma findIndex_from_first (f : value → result bool) (xs : list value)
    (i : Z) (k : nat) (p : value) :
  xs !! k = Some p →
  f p = Ok true →
  (∀ j q, j < k → xs !! j = Some q → f q = Ok false) →
  findIndex_from f xs i = Ok (i + Z.of_nat k)%Z.
Proof.
  revert i k. induction xs as [|x xs IH]; intros i k Hk Hp Hbefore; [done|].
  destruct k as [|k]; simpl in *.
  - injection Hk as ->. rewrite Hp. simpl. f_equal. lia.
  - rewrite (Hbefore 0 x); [simpl|lia|done].
    rewrite (IH (i + 1)%Z k); [f_equal; lia|done|done|].
    intros j q Hj Hq. apply (Hbefore (S j)); [lia|done].
Qed.

Lemma findIndex_from_none (f : value → result bool) (xs : list value) (i : Z) :
  Forall (λ q, f q = Ok false) xs → findIndex_from f xs i = Ok (-1)%Z.
Proof.
  intros Hall. revert i. induction Hall as [|x xs Hx _ IH]; intros i; [done|].
  simpl. rewrite Hx. simpl. apply IH.
Qed.

(** What a returned index says about the list. *)
Lemma findIndex_from_inv (f : value → result bool) (xs : list value) (i idx : Z) :
  findIndex_from f xs i = Ok idx →
  idx = (-1)%Z ∨
  ∃ (k : nat) (p : value),
    idx = (i + Z.of_nat k)%Z ∧ xs !! k = Some p ∧ f p = Ok true ∧
    ∀ j q, j < k → xs !! j = Some q → f q = Ok false.
Proof.
  revert i. induction xs as [|x xs IH]; intros i; simpl.
  - intros [= <-]. by left.
  - destruct (f x) as [[|]|] eqn:Hx; simpl; [| |done].
    + intros [= <-]. right. exists 0, x. split_and!; [lia|done|done|lia].
    + intros Hrest. destruct (IH _ Hrest) as [->|(k & p & -> & Hk & Hp & Hbefore)];
        [by left|right].
      exists (S k), p. split_and!; [lia|done|done|].
      intros [|j] q Hj Hq; simpl in Hq.
      * by injection Hq as <-.
      * apply (Hbefore j); [lia|done].
Qed.

Lemma Array_filter_total (f : value → result bool) (g : value → bool) (xs : list value) :
  Forall (λ q, f q = Ok (g q)) xs →
  Array_filter f xs = Ok (List.filter g xs).
Proof.
  induction 1 as [|x xs Hx _ IH]; [done|].
  simpl. rewrite Hx, IH. simpl. by destruct (g x).
Qed.

Lemma filter_bool_decide {A} (P : A → Prop) `{!∀ x, Decision (P x)} (xs : list A) :
  List.filter (λ x, bool_decide (P x)) xs = filter P xs.
Proof.
  induction xs as [|x xs IH]; [done|]. simpl. rewrite filter_cons.
  destruct (decide (P x)).
  - rewrite bool_decide_eq_true_2 by done. by rewrite IH.
  - rewrite bool_decide_eq_false_2 by done. by rewrite IH.
Qed.

End Lookup_facts.

(** ** PUT *)

Section Put_facts.
Import Js Blob Api Spec.
Context `{!Builtins}.

Lemma handler_put (req : request) (now : Z) (s : store) (products : list value) :
  method req = "PUT" →
  readProductsFromBlob s = Ok products →
  handler req now s = catch_all s (put_branch products req s).
Proof.
  intros Hmethod Hread. unfold handler, dispatch. rewrite Hmethod. simpl.
  by rewrite Hread.
Qed.

Lemma put_unfold (products : list value) (req : request) (s : store) :
  put_branch products req s =
    if negb (truthy (field (body req) "id"))
       || negb (String.eqb (typeof (field (body req) "updates")) "object")
    then Ok (send 400 (error_body "id and updates are required"), s)
    else
      idx ← Array_findIndex
               (λ p, pid ← getProp p "id"; Ok (strictEq pid (field (body req) "id")))
               products;
      if (idx =? -1)%Z then Ok (send 404 (error_body "Not found"), s)
      else
        let updated := spread (index products idx) (field (body req) "updates") in
        s' ← writeProductsToBlob (<[Z.to_nat idx := updated]> products) s;
        Ok (send 200 updated, s').
Proof. unfold put_branch. by rewrite !getProp_body. Qed.

Lemma index_of_nat (products : list value) (k : nat) (p : value) :
  products !! k = Some p → index products (Z.of_nat k) = p.
Proof.
  intros Hk. unfold index.
  destruct (Z.ltb_spec (Z.of_nat k) 0) as [Hneg|_]; [lia|].
  by rewrite Nat2Z.id, Hk.
Qed.

Lemma same_id_inv (ident p : value) :
  (pid ← getProp p "id"; Ok (strictEq pid ident)) = Ok true →
  nullish p = false ∧ has_id ident p.
Proof.
  intros Hcall. assert (nullish p = false) as Hp by (by destruct p).
  split; [done|]. rewrite (getProp_field _ _ Hp) in Hcall. simpl in Hcall.
  unfold has_id. congruence.
Qed.

Lemma same_id_false_inv (ident p : value) :
  (pid ← getProp p "id"; Ok (strictEq pid ident)) = Ok false → ¬ has_id ident p.
Proof.
  intros Hcall. assert (nullish p = false) as Hp by (by destruct p).
  rewrite (getProp_field _ _ Hp) in Hcall. simpl in Hcall.
  unfold has_id. congruence.
Qed.

(** The first record with the id, among records, is the one [findIndex]
    returns. *)
Lemma findIndex_located (ident : value) (products : list value) (idx : nat) (record : value) :
  Forall (λ q, nullish q = false) products →
  list_find (has_id ident) products = Some (idx, record) →
  Array_findIndex (λ p, pid ← getProp p "id"; Ok (strictEq pid ident)) products
    = Ok (Z.of_nat idx).
Proof.
  intros Hrecords (Hidx & Hid & Hfirst)%list_find_Some.
  rewrite Forall_lookup in Hrecords.
  unfold Array_findIndex. rewrite (findIndex_from_first _ _ 0 idx record); [done|done|..].
  - rewrite same_id_record by eauto. by rewrite bool_decide_eq_true_2.
  - intros j q Hj Hq. rewrite same_id_record by eauto.
    rewrite bool_decide_eq_false_2; [done|]. by apply (Hfirst j).
Qed.

Lemma findIndex_absent (ident : value) (products : list value) :
  Forall (λ q, nullish q = false) products →
  Forall (λ q, ¬ has_id ident q) products →
  Array_findIndex (λ p, pid ← getProp p "id"; Ok (strictEq pid ident)) products
    = Ok (-1)%Z.
Proof.
  intros Hrecords Hnone. apply findIndex_from_none.
  rewrite Forall_forall in *. intros q Hq.
  rewrite same_id_record by auto. rewrite bool_decide_eq_false_2; auto.
Qed.

(** A PUT answered 200 has validated its body, located a record, merged the
    updates into it and uploaded the list with that record replaced. *)
Lemma put_ok_inv (products : list value) (req : request) (s s' : store) (r : reply) :
  put_branch products req s = Ok (r, s') →
  status r = 200%Z →
  ∃ (idx : nat) (record : value),
    supplies (body req) "id" ∧
    typeof (field (body req) "updates") = "object" ∧
    list_find (has_id (field (body req) "id")) products = Some (idx, record) ∧
    r = send 200 (spread record (field (body req) "updates")) ∧
    writeProductsToBlob
      (<[idx := spread record (field (body req) "updates")]> products) s = Ok s'.
Proof.
  rewrite put_unfold.
  destruct (truthy (field (body req) "id")) eqn:Hid; simpl; [|by intros [= <- <-]].
  destruct (String.eqb_spec (typeof (field (body req) "updates")) "object")
    as [Hupdates|_]; simpl; [|by intros [= <- <-]].
  destruct (Array_findIndex _ products) as [idx|e] eqn:Hfind; simpl; [|done].
  destruct (Z.eqb_spec idx (-1)) as [->|Hfound]; [by intros [= <- <-]|].
  destruct (findIndex_from_inv _ _ _ _ Hfind)
    as [->|(k & record & Hidx & Hk & Hrecord & Hbefore)]; [done|].
  rewrite Z.add_0_l in Hidx. subst idx.
  simpl. rewrite Nat2Z.id, (index_of_nat _ _ _ Hk).
  destruct (writeProductsToBlob _ s) as [s1|e] eqn:Hwrite; simpl; [|done].
  intros [= <- <-] _. exists k, record. split_and!; try done.
  apply list_find_Some. split_and!; [done|exact (proj2 (same_id_inv _ _ Hrecord))|].
  intros j q Hq Hj. by apply same_id_false_inv, (Hbefore j).
Qed.

End Put_facts.

(** ** The catalog contract: PUT *)

Section Put_contract.
Import Js Blob Api Spec.
Context `{!Builtins}.

(** C3, as amended.  A PUT whose body gives a truthy [id] and an [updates]
    object (of type "object" and not [null]), sent when the snapshot holds
    records (no [null] element), one of which has that id, and when the store
    accepts the upload, is answered 200 with the first such record merged
    with the updates: every property of [updates] has its new value, every
    other property the value it had; the list uploaded is the snapshot with
    that one position replaced, all other positions and the length
    unchanged. *)
Theorem put_merges_updates (req : request) (now : Z) (s : store)
    (products : list value) (idx : nat) (record : value) :
  method req = "PUT" →
  supplies (body req) "id" →
  typeof (field (body req) "updates") = "object" →
  field (body req) "updates" ≠ VNull →
  readProductsFromBlob s = Ok products →
  Forall (λ q, nullish q = false) products →
  list_find (has_id (field (body req) "id")) products = Some (idx, record) →
  put_error s = None →
  ∃ merged s',
    handler req now s = (send 200 (VObj merged), s') ∧
    (∀ key v, ownProps (field (body req) "updates") !! key = Some v →
              merged !! key = Some v) ∧
    (∀ key, ownProps (field (body req) "updates") !! key = None →
            merged !! key = ownProps record !! key) ∧
    writeProductsToBlob (<[idx := VObj merged]> products) s = Ok s' ∧
    length (<[idx := VObj merged]> products) = length products ∧
    <[idx := VObj merged]> products !! idx = Some (VObj merged) ∧
    ∀ j, j ≠ idx → <[idx := VObj merged]> products !! j = products !! j.
Proof.
  intros Hmethod Hid Hupdates _ Hread Hrecords Hfound Hput.
  pose proof (findIndex_located _ _ _ _ Hrecords Hfound) as Hfind.
  apply list_find_Some in Hfound as (Hidx & _ & _).
  set (updates := field (body req) "updates") in *.
  set (merged := ownProps updates ∪ ownProps record).
  destruct (write_accepted (<[idx := VObj merged]> products) s Hput) as [s' Hwrite].
  exists merged, s'. split_and!.
  - rewrite (handler_put _ _ _ _ Hmethod Hread), put_unfold.
    unfold supplies in Hid. rewrite Hid. fold updates. rewrite Hupdates. simpl.
    rewrite Hfind. simpl.
    destruct (Z.eqb_spec (Z.of_nat idx) (-1)) as [Hneg|_]; [lia|].
    rewrite Nat2Z.id, (index_of_nat _ _ _ Hidx).
    unfold spread. fold merged. by rewrite Hwrite.
  - intros key v Hkey. by apply lookup_union_Some_l.
  - intros key Hkey. by apply lookup_union_r.
  - done.
  - apply length_insert.
  - apply list_lookup_insert_eq. by eapply lookup_lt_Some.
  - intros j Hj. by apply list_lookup_insert_ne.
Qed.

(** C4, the part the code delivers: without a truthy [id], or with an
    [updates] whose type is not "object", the answer is 400 and nothing is
    uploaded. *)
Lemma put_invalid_rejected (req : request) (now : Z) (s : store) :
  method req = "PUT" →
  ¬ supplies (body req) "id" ∨ typeof (field (body req) "updates") ≠ "object" →
  handler req now s = (send 400 (error_body "id and updates are required"), s).
Proof.
  intros Hmethod Hinvalid.
  destruct (read_total s) as [products Hread].
  rewrite (handler_put _ _ _ _ Hmethod Hread), put_unfold.
  assert (negb (truthy (field (body req) "id"))
          || negb (String.eqb (typeof (field (body req) "updates")) "object")
          = true) as ->; [|done].
  destruct Hinvalid as [Hid|Hupdates].
  - unfold supplies in Hid. apply not_true_is_false in Hid. by rewrite Hid.
  - apply String.eqb_neq in Hupdates. rewrite Hupdates. by rewrite orb_true_r.
Qed.

(** C4, the part the code delivers: a validated PUT whose id no record of the
    snapshot has is answered 404 and nothing is uploaded. *)
Lemma put_unknown_id_not_found (req : request) (now : Z) (s : store)
    (products : list value) :
  method req = "PUT" →
  supplies (body req) "id" →
  typeof (field (body req) "updates") = "object" →
  readProductsFromBlob s = Ok products →
  Forall (λ q, nullish q = false) products →
  Forall (λ q, ¬ has_id (field (body req) "id") q) products →
  handler req now s = (send 404 (error_body "Not found"), s).
Proof.
  intros Hmethod Hid Hupdates Hread Hrecords Hnone.
  rewrite (handler_put _ _ _ _ Hmethod Hread), put_unfold.
  unfold supplies in Hid. rewrite Hid, Hupdates. simpl.
  by rewrite (findIndex_absent _ _ Hrecords Hnone).
Qed.

(** C5, as amended.  Whenever a PUT is answered 200 and [updates] has no
    property [id], the merged record, which is the reply and the element
    uploaded in place of the located one, has the id of the located record,
    which is the id of the request. *)
Theorem put_keeps_id (req : request) (now : Z) (s : store) :
  method req = "PUT" →
  status (handler req now s).1 = 200%Z →
  ownProps (field (body req) "updates") !! "id" = None →
  ∃ products idx record merged,
    readProductsFromBlob s = Ok products ∧
    list_find (has_id (field (body req) "id")) products = Some (idx, record) ∧
    payload (handler req now s).1 = Some (VObj merged) ∧
    writeProductsToBlob (<[idx := VObj merged]> products) s
      = Ok (handler req now s).2 ∧
    <[idx := VObj merged]> products !! idx = Some (VObj merged) ∧
    merged !! "id" = ownProps record !! "id" ∧
    has_id (field (body req) "id") (VObj merged).
Proof.
  intros Hmethod Hstatus Hno_id.
  destruct (read_total s) as [products Hread].
  rewrite (handler_put _ _ _ _ Hmethod Hread) in *.
  destruct (put_branch products req s) as [[r s']|e] eqn:Hput; simpl in *; [|done].
  destruct (put_ok_inv _ _ _ _ _ Hput Hstatus)
    as (idx & record & Hid & Hupdates & Hfound & -> & Hwrite).
  exists products, idx, record,
    (ownProps (field (body req) "updates") ∪ ownProps record).
  pose proof Hfound as (Hidx & Hrecord & _)%list_find_Some.
  destruct (has_id_object _ _ Hid Hrecord) as (fields & pid & -> & Hpid & Heq).
  split_and!; try done.
  - apply list_lookup_insert_eq. by eapply lookup_lt_Some.
  - by apply lookup_union_r.
  - unfold has_id. simpl. by rewrite lookup_union_r, Hpid.
Qed.

End Put_contract.

Section Put_examples.
Import Js Blob Api Spec Ascii_builtins Example.

(** The theorem at work: the price of the ring is updated. *)
Lemma put_merges_updates_witness :
  ∃ merged s',
    handler put_price instant stocked_store = (send 200 (VObj merged), s') ∧
    merged !! "price" = Some (num 699) ∧
    merged !! "name" = Some (VStr "Ring") ∧
    <[0 := VObj merged]> [ring; stud] !! 1 = Some stud.
Proof.
  destruct (put_merges_updates put_price instant stocked_store [ring; stud] 0 ring)
    as (merged & s' & Hreply & Hnew & Hold & _ & _ & _ & Hothers);
    [reflexivity | reflexivity | reflexivity | vm_compute; discriminate
    | reflexivity | repeat constructor | vm_compute; reflexivity | reflexivity |].
  exists merged, s'. split; [exact Hreply|]. split; [|split].
  - apply Hnew. vm_compute. reflexivity.
  - rewrite (Hold "name"); vm_compute; reflexivity.
  - rewrite (Hothers 1); [reflexivity|discriminate].
Defined.

(** C3 does not hold as stated: the id is that of a stored record, but
    [updates] is a string, so the request is answered 400 and nothing is
    merged or uploaded. *)
Lemma put_text_rejected :
  readProductsFromBlob stocked_store = Ok [ring; stud] ∧
  has_id (field (body put_text) "id") ring ∧
  handler put_text instant stocked_store =
    (send 400 (error_body "id and updates are required"), stocked_store).
Proof. vm_compute. done. Qed.

(** C4 is not met by the code: [typeof null] is "object", so a PUT whose
    [updates] is [null] passes the validation, is answered 200 with the
    record as it was, and the snapshot is uploaded. *)
Lemma put_null_updates_accepted :
  typeof (field (body put_null) "updates") = "object" ∧
  ∃ s', handler put_null instant stocked_store = (send 200 ring, s') ∧
        writeProductsToBlob [ring; stud] stocked_store = Ok s'.
Proof. split; [reflexivity|]. eexists. split; vm_compute; reflexivity. Qed.

(** The theorem at work: updating the price leaves the id "1". *)
Lemma put_keeps_id_witness :
  ∃ merged,
    payload (handler put_price instant stocked_store).1 = Some (VObj merged) ∧
    merged !! "id" = Some (VStr "1").
Proof.
  destruct (put_keeps_id put_price instant stocked_store)
    as (products & idx & record & merged & Hread & Hfound & Hreply & _ & _ & Hid & _);
    [reflexivity | vm_compute; reflexivity | vm_compute; reflexivity |].
  exists merged. split; [exact Hreply|].
  vm_compute in Hread. injection Hread as <-.
  vm_compute in Hfound. injection Hfound as <- <-.
  rewrite Hid. vm_compute. reflexivity.
Defined.

(** C5 does not hold as stated: [updates] may name [id], and the merge then
    overwrites it.  The record located by "1" is returned, and uploaded,
    with the id "9". *)
Lemma put_changes_id :
  ∃ merged s',
    handler put_new_id instant stocked_store = (send 200 (VObj merged), s') ∧
    field (body put_new_id) "id" = VStr "1" ∧
    merged !! "id" = Some (VStr "9") ∧
    ¬ has_id (field (body put_new_id) "id") (VObj merged) ∧
    writeProductsToBlob [VObj merged; stud] stocked_store = Ok s'.
Proof.
  do 2 eexists. split; [vm_compute; reflexivity|].
  split; [reflexivity|]. split; [vm_compute; reflexivity|].
  split; [vm_compute; discriminate|]. vm_compute. reflexivity.
Qed.

End Put_examples.

(** ** The catalog contract: reading *)

Section Read_contract.
Import Js Blob Api Spec.
Context `{!Builtins}.

Lemma prefix_refl (s : string) : String.prefix s s = true.
Proof.
  induction s as [|c s IH]; [done|]. simpl.
  by destruct (Ascii.ascii_dec c c).
Qed.

(** Looking for the exact pathname among the objects listed under the prefix
    is looking for it among all objects. *)
Lemma find_listed (name : string) (blobs : list blob) :
  List.find (λ b, String.eqb (pathname b) name)
    (List.filter (λ b, String.prefix name (pathname b)) blobs)
  = List.find (λ b, String.eqb (pathname b) name) blobs.
Proof.
  induction blobs as [|b blobs IH]; [done|]. simpl.
  destruct (String.eqb (pathname b) name) eqn:Hname.
  - pose proof Hname as Heq%String.eqb_eq.
    rewrite <-Heq, prefix_refl. simpl. by rewrite String.eqb_refl.
  - destruct (String.prefix name (pathname b)); [simpl|done].
    by rewrite Hname.
Qed.

Lemma find_absent (blobs : list blob) :
  Forall (λ b, pathname b ≠ BLOB_NAME) blobs →
  List.find (λ b, String.eqb (pathname b) BLOB_NAME) blobs = None.
Proof.
  induction 1 as [|b blobs Hb _ IH]; [done|]. simpl.
  apply String.eqb_neq in Hb. by rewrite Hb.
Qed.

Lemma find_stored (blobs : list blob) (i : nat) (b : blob) :
  list_find (λ b, pathname b = BLOB_NAME) blobs = Some (i, b) →
  List.find (λ b, String.eqb (pathname b) BLOB_NAME) blobs = Some b.
Proof.
  intros (Hi & Hb & Hfirst)%list_find_Some.
  revert i Hi Hfirst. induction blobs as [|x blobs IH]; intros i Hi Hfirst; [done|].
  simpl. destruct i as [|i]; simpl in Hi.
  - injection Hi as ->. by rewrite Hb.
  - assert (pathname x ≠ BLOB_NAME) as Hx%String.eqb_neq by (apply (Hfirst 0); [done|lia]).
    rewrite Hx. apply (IH i); [done|].
    intros j y Hy Hj. apply (Hfirst (S j)); [done|lia].
Qed.

Lemma read_stored (s : store) (b : blob) :
  stored_blob s b →
  readProductsFromBlob s =
    try_catch
      (res ← fetch s (url b);
       if negb (ok res) then Ok []
       else data ← json res; Ok (match data with VArr xs => xs | _ => [] end))
      (λ err, Ok []).
Proof.
  intros (blobs & i & Hlist & Hfind).
  unfold readProductsFromBlob, list_blobs. rewrite Hlist. simpl.
  by rewrite find_listed, (find_stored _ _ _ Hfind).
Qed.

Lemma read_unreadable (s : store) :
  unreadable s → readProductsFromBlob s = Ok [].
Proof.
  intros [e He|blobs Hlist Habsent|b e Hb He|b res Hb Hres Hok
         |b res e Hb Hres He|b res data Hb Hres Hdata Harray].
  - unfold readProductsFromBlob, list_blobs. by rewrite He.
  - unfold readProductsFromBlob, list_blobs. rewrite Hlist. simpl.
    by rewrite find_listed, find_absent.
  - by rewrite (read_stored _ _ Hb), He.
  - rewrite (read_stored _ _ Hb), Hres. simpl. by rewrite Hok.
  - rewrite (read_stored _ _ Hb), Hres. simpl. rewrite He. by destruct (ok res).
  - rewrite (read_stored _ _ Hb), Hres. simpl. rewrite Hdata.
    destruct (ok res); [simpl|done]. by destruct data.
Qed.

(** C6.  Reading the snapshot always returns a list, and a GET is always
    answered 200 with that list, the store untouched.  When listing rejects,
    no object has the pathname, the fetch rejects or is not ok, or the body
    is not a JSON array, the list is empty: a GET is answered 200 with the
    empty array. *)
Theorem read_never_fails (s : store) :
  (∃ products,
     readProductsFromBlob s = Ok products ∧
     ∀ get now, method get = "GET" →
       handler get now s = (send 200 (VArr products), s)) ∧
  (unreadable s →
     readProductsFromBlob s = Ok [] ∧
     ∀ get now, method get = "GET" →
       handler get now s = (send 200 (VArr []), s)).
Proof.
  split.
  - destruct (read_total s) as [products Hread]. exists products.
    split; [done|]. intros get now Hget. by apply get_reads.
  - intros Hread%read_unreadable. split; [done|].
    intros get now Hget. by apply get_reads.
Qed.

End Read_contract.

(** ** The catalog contract: DELETE *)

Section Delete_contract.
Import Js Blob Api Spec.
Context `{!Builtins}.

Lemma handler_delete (req : request) (now : Z) (s : store) (products : list value) :
  method req = "DELETE" →
  readProductsFromBlob s = Ok products →
  handler req now s = catch_all s (delete_branch products req s).
Proof.
  intros Hmethod Hread. unfold handler, dispatch. rewrite Hmethod. simpl.
  by rewrite Hread.
Qed.

Lemma delete_unfold (products : list value) (req : request) (s : store) :
  delete_branch products req s =
    if negb (truthy (field (body req) "id"))
    then Ok (send 400 (error_body "id is required"), s)
    else
      next ← Array_filter
                (λ p, pid ← getProp p "id";
                      Ok (negb (strictEq pid (field (body req) "id"))))
                products;
      s' ← writeProductsToBlob next s;
      Ok (send 200 (obj [("ok", VBool true)]), s').
Proof. unfold delete_branch. by rewrite !getProp_body. Qed.

(** Among records, the filter keeps exactly those with another id. *)
Lemma filter_other_ids (ident : value) (products : list value) :
  Forall (λ q, nullish q = false) products →
  Array_filter (λ p, pid ← getProp p "id"; Ok (negb (strictEq pid ident))) products
    = Ok (filter (λ p, ¬ has_id ident p) products).
Proof.
  intros Hrecords.
  rewrite (Array_filter_total _ (λ p, bool_decide (¬ has_id ident p))).
  - by rewrite (filter_bool_decide (λ p, ¬ has_id ident p)).
  - eapply Forall_impl; [exact Hrecords|]. intros q Hq. by apply other_id_record.
Qed.

Lemma filter_keeps_all {A} (P : A → Prop) `{!∀ x, Decision (P x)} (xs : list A) :
  Forall P xs → filter P xs = xs.
Proof.
  induction 1 as [|x xs Hx _ IH]; [done|].
  by rewrite filter_cons_True, IH.
Qed.

(** C7, as amended.  A DELETE whose body gives a truthy [id], sent when the
    snapshot holds records (no [null] element) and when the store accepts
    the upload, is answered 200 with [{ok: true}]; the list uploaded is the
    snapshot without the records that have that id, the others in their
    order.  When no record has the id, the list uploaded is the snapshot
    itself, and the next read returns it as serialised. *)
Theorem delete_removes_matching (req : request) (now : Z) (s : store)
    (products : list value) :
  method req = "DELETE" →
  supplies (body req) "id" →
  readProductsFromBlob s = Ok products →
  Forall (λ q, nullish q = false) products →
  put_error s = None →
  ∃ s',
    handler req now s = (send 200 (obj [("ok", VBool true)]), s') ∧
    writeProductsToBlob
      (filter (λ p, ¬ has_id (field (body req) "id") p) products) s = Ok s' ∧
    (Forall (λ p, ¬ has_id (field (body req) "id") p) products →
       writeProductsToBlob products s = Ok s' ∧
       readProductsFromBlob s' = Ok (jsonify <$> products)).
Proof.
  intros Hmethod Hid Hread Hrecords Hput.
  set (next := filter (λ p, ¬ has_id (field (body req) "id") p) products).
  destruct (write_accepted next s Hput) as [s' Hwrite].
  exists s'. split_and!.
  - rewrite (handler_delete _ _ _ _ Hmethod Hread), delete_unfold.
    unfold supplies in Hid. rewrite Hid. simpl.
    rewrite (filter_other_ids _ _ Hrecords). simpl. fold next. by rewrite Hwrite.
  - done.
  - intros Hnone. unfold next in Hwrite.
    rewrite (filter_keeps_all _ _ Hnone) in Hwrite. split; [done|].
    by apply read_after_write in Hwrite.
Qed.

End Delete_contract.

(** ** The snapshots the handler leaves behind *)

Section Records.
Import Js Blob Api Spec.
Context `{!Builtins}.

Lemma record_not_nullish (v : value) : is_record v → nullish v = false.
Proof. by intros [fields ->]. Qed.

Lemma jsonify_record (v : value) : is_record v → is_record (jsonify v).
Proof. intros [fields ->]. simpl. by eexists. Qed.

Lemma Array_filter_Forall (P : value → Prop) (f : value → result bool)
    (xs ys : list value) :
  Array_filter f xs = Ok ys → Forall P xs → Forall P ys.
Proof.
  revert ys. induction xs as [|x xs IH]; intros ys; simpl.
  - by intros [= <-].
  - destruct (f x) as [keep|]; [simpl|done].
    destruct (Array_filter f xs) as [kept|]; [simpl|done].
    intros [= <-] [Hx Hxs]%Forall_cons. specialize (IH kept eq_refl Hxs).
    destruct keep; [by constructor|done].
Qed.

Lemma written_records (next : list value) (s s' : store) :
  writeProductsToBlob next s = Ok s' →
  Forall is_record next →
  ∃ products', readProductsFromBlob s' = Ok products' ∧ Forall is_record products'.
Proof.
  intros Hwrite%read_after_write Hnext. eexists. split; [done|].
  apply Forall_fmap. eapply Forall_impl; [done|]. apply jsonify_record.
Qed.

(** Records in, records out: if the snapshot a request finds consists of
    records, so does the snapshot it leaves, whatever the request.  The
    handler therefore never stores a [null] element by itself. *)
Lemma handler_keeps_records (req : request) (now : Z) (s : store)
    (products : list value) :
  readProductsFromBlob s = Ok products →
  Forall is_record products →
  ∃ products',
    readProductsFromBlob (handler req now s).2 = Ok products' ∧
    Forall is_record products'.
Proof.
  intros Hread Hrecords.
  assert (∃ products', readProductsFromBlob s = Ok products' ∧
                       Forall is_record products') as Hsame by eauto.
  unfold handler, dispatch.
  destruct (String.eqb (method req) "OPTIONS"); [done|].
  destruct (String.eqb (method req) "GET"); [by rewrite Hread|].
  rewrite Hread. simpl.
  destruct (String.eqb (method req) "POST").
  { rewrite post_unfold. destruct (negb _ || negb _ || negb _); [done|].
    destruct (newProduct now _) as [created|] eqn:Hlit; [simpl|done].
    destruct (writeProductsToBlob _ s) as [s'|] eqn:Hwrite; [simpl|done].
    apply (written_records _ _ _ Hwrite), Forall_app. split; [done|].
    destruct (newProduct_fields _ _ _ Hlit) as (? & ? & ? & ? & fields & -> & _).
    repeat constructor. by eexists. }
  destruct (String.eqb (method req) "PUT").
  { rewrite put_unfold. destruct (negb _ || negb _); [done|].
    destruct (Array_findIndex _ products) as [idx|]; [simpl|done].
    destruct (idx =? -1)%Z; [done|].
    destruct (writeProductsToBlob _ s) as [s'|] eqn:Hwrite; [simpl|done].
    apply (written_records _ _ _ Hwrite), Forall_insert; [done|]. by eexists. }
  destruct (String.eqb (method req) "DELETE"); [|done].
  rewrite delete_unfold. destruct (negb _); [done|].
  destruct (Array_filter _ products) as [next|] eqn:Hnext; [simpl|done].
  destruct (writeProductsToBlob _ s) as [s'|] eqn:Hwrite; [simpl|done].
  apply (written_records _ _ _ Hwrite). by eapply Array_filter_Forall.
Qed.

End Records.

Section Read_delete_examples.
Import Js Blob Api Spec Ascii_builtins Example.

(** The theorem at work: a GET on the empty store. *)
Lemma read_never_fails_witness :
  handler get_request instant empty_store = (send 200 (VArr []), empty_store).
Proof.
  destruct (read_never_fails empty_store) as [_ Hempty].
  destruct Hempty as [_ Hget].
  - apply (blob_absent empty_store []); [reflexivity|constructor].
  - apply Hget. reflexivity.
Defined.

(** The theorem at work: deleting an id that no record has. *)
Lemma delete_removes_matching_witness :
  ∃ s', handler delete_absent instant stocked_store
          = (send 200 (obj [("ok", VBool true)]), s') ∧
        writeProductsToBlob [ring; stud] stocked_store = Ok s'.
Proof.
  destruct (delete_removes_matching delete_absent instant stocked_store [ring; stud])
    as (s' & Hreply & _ & Hsame);
    [reflexivity | reflexivity | reflexivity | repeat constructor | reflexivity |].
  exists s'. split; [exact Hreply|].
  apply Hsame. repeat constructor; vm_compute; discriminate.
Defined.

(** C7 does not hold as stated: without a write token the upload is
    rejected, and a DELETE with a truthy id is answered 500, the store being
    what it was. *)
Lemma delete_upload_rejected :
  supplies (body delete_ring) "id" ∧
  handler delete_ring instant tokenless_store =
    (send 500 (error_body "Vercel Blob: No token found."), tokenless_store).
Proof. vm_compute. done. Qed.

End Read_delete_examples.

(** ** The client state *)

Section Client_facts.
Import Js Spec Client.

Lemma prefix_occurs (sub s : string) :
  String.prefix sub s = true ↔ ∃ after, s = sub +:+ after.
Proof.
  revert s. induction sub as [|c sub IH]; intros [|d s]; simpl.
  - split; [|done]. intros _. by exists "".
  - split; [|done]. intros _. by exists (String d s).
  - split; [done|]. by intros [after Hafter].
  - destruct (Ascii.ascii_dec c d) as [->|Hne].
    + rewrite IH. split; intros [after Hafter]; exists after.
      * by rewrite Hafter.
      * change (String d s = String d (sub +:+ after)) in Hafter. congruence.
    + split; [done|]. intros [after Hafter].
      change (String d s = String c (sub +:+ after)) in Hafter. congruence.
Qed.

(** [includes] decides occurrence. *)
Lemma includes_occurs (s sub : string) :
  includes s sub = true ↔ occurs_in sub s.
Proof.
  split.
  - induction s as [|c s IH].
    + destruct sub as [|d sub]; [|done]. intros _. by exists "", "".
    + change (includes (String c s) sub)
        with (String.prefix sub (String c s) || includes s sub).
      rewrite orb_true_iff, prefix_occurs.
      intros [[after Hafter]|(before & after & Hs)%IH].
      * by exists "", after.
      * exists (String c before), after. by rewrite Hs.
  - intros (before & after & ->). induction before as [|c before IH].
    + change ("" +:+ sub +:+ after) with (sub +:+ after).
      assert (String.prefix sub (sub +:+ after) = true) as Hprefix
        by (apply prefix_occurs; by exists after).
      destruct (sub +:+ after) as [|d rest].
      * change (includes "" sub) with (String.prefix sub "" || false).
        by rewrite Hprefix.
      * change (includes (String d rest) sub)
          with (String.prefix sub (String d rest) || includes rest sub).
        by rewrite Hprefix.
    + change (String c before +:+ sub +:+ after)
        with (String c (before +:+ sub +:+ after)).
      simpl. by rewrite IH, orb_true_r.
Qed.

End Client_facts.

Section Client_contract.
Import Js Spec Client.
Context `{!Builtins}.

(** The test [searchProducts] applies to a product decides [matches]. *)
Lemma search_test (query : string) (p : Product) :
  includes (toLowerCase (name p)) (toLowerCase query)
  || includes (toLowerCase (description p)) (toLowerCase query)
  || includes (toLowerCase (category p)) (toLowerCase query) = true
  ↔ matches query p.
Proof. unfold matches. rewrite !orb_true_iff, !includes_occurs. tauto. Qed.

Lemma search_cons (query : string) (p : Product) (products : list Product) :
  (matches query p →
     searchProducts (p :: products) query = p :: searchProducts products query) ∧
  (¬ matches query p →
     searchProducts (p :: products) query = searchProducts products query).
Proof.
  unfold searchProducts. simpl. rewrite <-search_test.
  destruct (_ || _ || _); split; by intros.
Qed.

Lemma search_none (query : string) (products : list Product) :
  Forall (λ p, ¬ matches query p) products → searchProducts products query = [].
Proof.
  induction 1 as [|p products Hp _ IH]; [done|].
  by rewrite (proj2 (search_cons query p products) Hp).
Qed.

Lemma search_app (query : string) (before after : list Product) :
  searchProducts (before ++ after) query
  = searchProducts before query ++ searchProducts after query.
Proof. unfold searchProducts. apply List.filter_app. Qed.

(** C9.  [searchProducts] returns exactly the products in which the
    lower-cased query occurs in the lower-cased name, description or
    category, in the order of [products]; so a query that occurs in the
    description of one product and in no field of any other returns that
    product alone. *)
Theorem searchProducts_selects (products : list Product) (query : string) :
  selected (matches query) products (searchProducts products query) ∧
  ∀ before p after,
    products = before ++ p :: after →
    occurs_in (toLowerCase query) (toLowerCase (description p)) →
    Forall (λ other, ¬ matches query other) (before ++ after) →
    searchProducts products query = [p].
Proof.
  split.
  - induction products as [|p products IH]; [constructor|].
    destruct (decide (includes (toLowerCase (name p)) (toLowerCase query)
                      || includes (toLowerCase (description p)) (toLowerCase query)
                      || includes (toLowerCase (category p)) (toLowerCase query) = true))
      as [Hp|Hp]; rewrite search_test in Hp.
    + rewrite (proj1 (search_cons query p products) Hp). by constructor.
    + rewrite (proj2 (search_cons query p products) Hp). by constructor.
  - intros before p after -> Hdescription [Hbefore Hafter]%Forall_app.
    rewrite search_app, (search_none _ _ Hbefore), app_nil_l.
    rewrite (proj1 (search_cons query p after)); [|right; by left].
    by rewrite (search_none _ _ Hafter).
Qed.

(** C10.  [updateProduct] maps over the list: the result has the length of
    the list; at every position a product with another id stays as it is and
    a product with the given id is merged with the updates; when no product
    has the id the list is unchanged. *)
Theorem updateProduct_keeps_shape (ident : string) (updates : PartialProduct)
    (prev : list Product) :
  length (updateProduct ident updates prev) = length prev ∧
  (∀ i p, prev !! i = Some p → id p ≠ ident →
          updateProduct ident updates prev !! i = Some p) ∧
  (∀ i p, prev !! i = Some p → id p = ident →
          updateProduct ident updates prev !! i = Some (merge p updates)) ∧
  (Forall (λ p, id p ≠ ident) prev → updateProduct ident updates prev = prev).
Proof.
  unfold updateProduct. split_and!.
  - apply length_map.
  - intros i p Hi Hid. change (map ?f prev) with (f <$> prev).
    rewrite list_lookup_fmap, Hi. simpl.
    apply String.eqb_neq in Hid. by rewrite Hid.
  - intros i p Hi Hid. change (map ?f prev) with (f <$> prev).
    rewrite list_lookup_fmap, Hi. simpl.
    apply String.eqb_eq in Hid. by rewrite Hid.
  - induction 1 as [|p prev Hp _ IH]; [done|]. simpl.
    apply String.eqb_neq in Hp. by rewrite Hp, IH.
Qed.

End Client_contract.

Section Client_examples.
Import Js Spec Client Ascii_builtins Example.

(** The theorem at work: only the description of the stud mentions art deco. *)
Lemma searchProducts_selects_witness :
  searchProducts initialProducts "ART DECO" = [korean_stud].
Proof.
  destruct (searchProducts_selects initialProducts "ART DECO") as [_ Hone].
  apply (Hone (take 2 initialProducts) korean_stud []).
  - reflexivity.
  - exists "", " inspired ruby ring with diamond accents". reflexivity.
  - repeat constructor; intros Hmatch; apply search_test in Hmatch;
      vm_compute in Hmatch; discriminate.
Defined.

(** The theorem at work: no initial product has the id "7". *)
Lemma updateProduct_keeps_shape_witness :
  updateProduct "7" sold_out initialProducts = initialProducts.
Proof.
  apply (updateProduct_keeps_shape "7" sold_out initialProducts).
  repeat constructor; vm_compute; discriminate.
Defined.

End Client_examples.

(** * Further properties of the handler *)

(** ** Induction on values, and serialising twice *)

Section Value_facts.
Import Js.

Lemma size_element (x : value) (xs : list value) :
  x ∈ xs → size x < size (VArr xs).
Proof. simpl. induction 1 as [x xs|x y xs _ IH]; simpl in *; lia. Qed.

Lemma size_property (fields : gmap string value) (key : string) (x : value) :
  fields !! key = Some x → size x < size (VObj fields).
Proof.
  intros Hkey. simpl. rewrite <-(insert_delete_id fields key x Hkey).
  rewrite map_fold_insert_L; [lia|intros; lia|apply lookup_delete_eq].
Qed.

(** Induction on a value: the elements of an array and the property values
    of an object come with the induction hypothesis. *)
Lemma value_induction (P : value → Prop) :
  P VUndefined → P VNull → (∀ b, P (VBool b)) → (∀ n, P (VNum n)) →
  (∀ s, P (VStr s)) →
  (∀ xs, Forall P xs → P (VArr xs)) →
  (∀ fields, map_Forall (λ _, P) fields → P (VObj fields)) →
  ∀ v, P v.
Proof.
  intros Hundefined Hnull Hbool Hnum Hstr Harr Hobj v.
  remember (size v) as n eqn:Hsize. revert v Hsize.
  induction (lt_wf n) as [n _ IH]. intros v ->.
  destruct v as [| | | | |xs|fields]; auto.
  - apply Harr, Forall_forall. intros x Hx.
    apply (IH (size x)); [by apply size_element|done].
  - apply Hobj. intros key x Hkey.
    apply (IH (size x)); [by eapply size_property|done].
Qed.

(** Serialising is idempotent: a value that has been through JSON once comes
    out of it unchanged. *)
Lemma jsonify_idempotent (v : value) : jsonify (jsonify v) = jsonify v.
Proof.
  induction v as [| | |n| |xs IH|fields IH] using value_induction; try done.
  - by destruct n.
  - simpl. f_equal. rewrite <-list_fmap_compose. apply Forall_fmap_ext_1.
    eapply Forall_impl; [exact IH|]. done.
  - simpl. f_equal. apply map_eq. intros key. rewrite !lookup_omap.
    destruct (fields !! key) as [x|] eqn:Hkey; [simpl|done].
    pose proof (IH key x Hkey) as Hx.
    destruct x as [| | |[]| | |]; simpl in *; by rewrite ?Hx.
Qed.

Lemma jsonify_list_idempotent (xs : list value) :
  jsonify <$> (jsonify <$> xs) = jsonify <$> xs.
Proof.
  rewrite <-list_fmap_compose. apply list_fmap_ext. intros _ x _.
  apply jsonify_idempotent.
Qed.

End Value_facts.

(** ** The store, read and written *)

Section Store_round_trip.
Import Js Blob Api Spec.
Context `{!Builtins}.

(** The read returns the array served at the address of the first object
    whose pathname is exactly the well-known one, whatever else the store
    lists under that prefix. *)
Theorem read_returns_stored_array (s : store) (b : blob) (res : response)
    (xs : list value) :
  stored_blob s b →
  fetch s (url b) = Ok res →
  ok res = true →
  json res = Ok (VArr xs) →
  readProductsFromBlob s = Ok xs.
Proof.
  intros Hstored Hfetch Hok Hjson.
  rewrite (read_stored _ _ Hstored), Hfetch. simpl. by rewrite Hok, Hjson.
Qed.

(** What has been written reads back the same however often it is read and
    written back: the snapshot a write leaves is a fixed point of
    write-then-read. *)
Theorem rewrite_keeps_snapshot (products stored : list value) (s s1 s2 : store) :
  writeProductsToBlob products s = Ok s1 →
  readProductsFromBlob s1 = Ok stored →
  writeProductsToBlob stored s1 = Ok s2 →
  readProductsFromBlob s2 = Ok stored.
Proof.
  intros Hfirst%read_after_write Hread Hsecond%read_after_write.
  rewrite Hfirst in Hread. injection Hread as <-.
  by rewrite jsonify_list_idempotent in Hsecond.
Qed.

End Store_round_trip.

(** ** Every reply, every store *)

Section Replies.
Import Js Blob Api Spec.
Context `{!Builtins}.

(** What the [try] block can return: a reply with the CORS headers which
    either leaves the store alone (a GET, or a refusal) or follows an
    accepted upload (201 for POST, 200 for PUT and DELETE). *)
Lemma dispatch_outcome (req : request) (now : Z) (s s' : store) (r : reply) :
  dispatch req now s = Ok (r, s') →
  headers r = cors ∧
  ((s' = s ∧
    ((status r = 200%Z ∧ method req = "GET") ∨ status r = 400%Z
     ∨ status r = 404%Z ∨ status r = 405%Z))
   ∨ (∃ next, writeProductsToBlob next s = Ok s' ∧
        ((status r = 201%Z ∧ method req = "POST")
         ∨ (status r = 200%Z ∧ (method req = "PUT" ∨ method req = "DELETE"))))).
Proof.
  unfold dispatch. destruct (read_total s) as [products ->]. simpl.
  destruct (String.eqb_spec (method req) "GET") as [Hget|_].
  { intros [= <- <-]. split; [done|]. left. split; [done|]. by left. }
  destruct (String.eqb_spec (method req) "POST") as [Hpost|_].
  { rewrite post_unfold. destruct (negb _ || negb _ || negb _).
    { intros [= <- <-]. split; [done|]. left. split; [done|]. right. by left. }
    destruct (newProduct now _) as [created|]; [simpl|done].
    destruct (writeProductsToBlob _ s) as [s1|] eqn:Hwrite; [simpl|done].
    intros [= <- <-]. split; [done|]. right. eexists. split; [done|]. by left. }
  destruct (String.eqb_spec (method req) "PUT") as [Hput|_].
  { rewrite put_unfold. destruct (negb _ || negb _).
    { intros [= <- <-]. split; [done|]. left. split; [done|]. right. by left. }
    destruct (Array_findIndex _ products) as [idx|]; [simpl|done].
    destruct (idx =? -1)%Z.
    { intros [= <- <-]. split; [done|]. left. split; [done|]. right. right. by left. }
    destruct (writeProductsToBlob _ s) as [s1|] eqn:Hwrite; [simpl|done].
    intros [= <- <-]. split; [done|]. right. eexists. split; [done|]. right. eauto. }
  destruct (String.eqb_spec (method req) "DELETE") as [Hdelete|_].
  { rewrite delete_unfold. destruct (negb _).
    { intros [= <- <-]. split; [done|]. left. split; [done|]. right. by left. }
    destruct (Array_filter _ products) as [next|]; [simpl|done].
    destruct (writeProductsToBlob _ s) as [s1|] eqn:Hwrite; [simpl|done].
    intros [= <- <-]. split; [done|]. right. eexists. split; [done|]. right. eauto. }
  intros [= <- <-]. split; [done|]. left. split; [done|]. by do 3 right.
Qed.

(** Every reply carries the three CORS headers, and its status is one of
    200, 201, 400, 404, 405 and 500, whatever the request and whatever the
    store answers. *)
Theorem reply_headers_and_status (req : request) (now : Z) (s : store) :
  headers (handler req now s).1 = cors ∧
  status (handler req now s).1 ∈ [200; 201; 400; 404; 405; 500]%Z.
Proof.
  unfold handler. destruct (String.eqb (method req) "OPTIONS").
  { split; [done|]. set_solver. }
  destruct (dispatch req now s) as [[r s']|e] eqn:Hdispatch; simpl.
  - destruct (dispatch_outcome _ _ _ _ _ Hdispatch)
      as [Hcors [[_ [[-> _]|[->|[->| ->]]]]|(next & _ & [[-> _]|[-> _]])]];
      (split; [done|set_solver]).
  - split; [done|]. set_solver.
Qed.

(** The store changes only by an accepted upload, and then the reply is the
    201 of a POST or the 200 of a PUT or DELETE: a refusal, an error, a GET
    or an OPTIONS request leaves the store exactly as it was. *)
Theorem store_changes_only_by_upload (req : request) (now : Z) (s : store) :
  (handler req now s).2 = s ∨
  ∃ next,
    writeProductsToBlob next s = Ok (handler req now s).2 ∧
    ((status (handler req now s).1 = 201%Z ∧ method req = "POST") ∨
     (status (handler req now s).1 = 200%Z ∧
      (method req = "PUT" ∨ method req = "DELETE"))).
Proof.
  unfold handler. destruct (String.eqb (method req) "OPTIONS"); [by left|].
  destruct (dispatch req now s) as [[r s']|e] eqn:Hdispatch; simpl; [|by left].
  destruct (dispatch_outcome _ _ _ _ _ Hdispatch) as [_ [[-> _]|Hwritten]];
    [by left|by right].
Qed.

(** A method that is none of the five is answered 405, the store untouched;
    the comparison is exact, so [get] in lower case is such a method. *)
Theorem other_method_not_allowed (req : request) (now : Z) (s : store) :
  method req ∉ ["OPTIONS"; "GET"; "POST"; "PUT"; "DELETE"] →
  handler req now s = (send 405 (error_body "Method Not Allowed"), s).
Proof.
  intros Hother. unfold handler, dispatch.
  destruct (read_total s) as [products ->]. simpl.
  repeat match goal with
  | |- context [String.eqb (method req) ?m] =>
      destruct (String.eqb_spec (method req) m) as [Heq|_];
        [exfalso; apply Hother; rewrite Heq; set_solver|]
  end.
  done.
Qed.

(** A DELETE whose body gives no truthy [id] is answered 400 and nothing is
    uploaded, whatever the store holds. *)
Theorem delete_without_id_rejected (req : request) (now : Z) (s : store) :
  method req = "DELETE" →
  ¬ supplies (body req) "id" →
  handler req now s = (send 400 (error_body "id is required"), s).
Proof.
  intros Hmethod Hid%not_true_is_false.
  destruct (read_total s) as [products Hread].
  rewrite (handler_delete _ _ _ _ Hmethod Hread), delete_unfold.
  unfold supplies in Hid. by rewrite Hid.
Qed.

(** While the store rejects uploads, no request changes it and none but a
    GET or OPTIONS is answered with a success status: the handler never
    reports a creation, update or deletion it has not stored. *)
Theorem no_success_without_upload (req : request) (now : Z) (s : store) (e : exn) :
  put_error s = Some e →
  (handler req now s).2 = s ∧
  (method req ≠ "GET" → method req ≠ "OPTIONS" →
   status (handler req now s).1 ≠ 200%Z ∧ status (handler req now s).1 ≠ 201%Z).
Proof.
  intros Hput.
  assert (∀ next s', writeProductsToBlob next s ≠ Ok s') as Hnever.
  { intros next s'. unfold writeProductsToBlob, put. by rewrite Hput. }
  unfold handler. destruct (String.eqb_spec (method req) "OPTIONS") as [Hoptions|_].
  { split; [done|]. by intros _ []. }
  destruct (dispatch req now s) as [[r s']|err] eqn:Hdispatch; simpl; [|done].
  destruct (dispatch_outcome _ _ _ _ _ Hdispatch)
    as [_ [[-> Hstatus]|(next & Hwrite & _)]]; [|by destruct (Hnever next s')].
  split; [done|]. intros Hget _.
  destruct Hstatus as [[_ ?]|[->|[->| ->]]]; done.
Qed.

(** The [catch] clause passes the error of the store on: a well-formed POST
    whose upload is rejected is answered 500 with the message of the
    rejection, or with "Internal Error" when that message is empty. *)
Theorem post_upload_rejected (req : request) (now : Z) (s : store) (e : exn) :
  method req = "POST" →
  supplies (body req) "name" →
  supplies (body req) "price" →
  supplies (body req) "category" →
  converts (field (body req) "price") →
  converts (field (body req) "offerPrice") →
  converts (field (body req) "category") →
  converts (field (body req) "description") →
  put_error s = Some e →
  handler req now s =
    (send 500 (error_body (if String.eqb (message e) "" then "Internal Error"
                           else message e)), s).
Proof.
  intros Hmethod Hname Hprice Hcategory Hcp Hco Hcc Hcd Hput.
  destruct (read_total s) as [products Hread].
  destruct (newProduct_total now (body req) Hcp Hco Hcc Hcd) as [created Hlit].
  rewrite (handler_post _ _ _ _ Hmethod Hread), post_unfold.
  unfold supplies in *. rewrite Hname, Hprice, Hcategory. simpl.
  rewrite Hlit. simpl. unfold writeProductsToBlob, put. by rewrite Hput.
Qed.

End Replies.

(** ** Requests in sequence *)

Section Sequences.
Import Js Blob Api Spec.
Context `{!Builtins}.

Lemma write_leaves_writable (next : list value) (s s' : store) :
  writeProductsToBlob next s = Ok s' → put_error s' = None.
Proof.
  unfold writeProductsToBlob, put. destruct (put_error s); [done|].
  by intros [= <-].
Qed.

(** A record that has a truthy id once serialised had it before. *)
Lemma has_id_jsonify_inv (ident p : value) :
  truthy ident = true → has_id ident (jsonify p) → has_id ident p.
Proof.
  unfold has_id. intros Htruthy.
  destruct p as [| | |[]| | |fields]; try by destruct ident.
  simpl. rewrite lookup_omap.
  destruct (fields !! "id") as [pid|]; simpl; [|by destruct ident].
  destruct pid as [| | |[]| | |]; simpl; try done; by destruct ident as [| | |[]| | |].
Qed.

Lemma jsonify_records (products : list value) :
  Forall is_record products → Forall (λ q, nullish q = false) (jsonify <$> products).
Proof.
  intros Hrecords. apply Forall_fmap. eapply Forall_impl; [done|].
  intros q Hq. by apply record_not_nullish, jsonify_record.
Qed.

Lemma jsonify_without_id (ident : value) (products : list value) :
  truthy ident = true →
  Forall (λ q, ¬ has_id ident q) products →
  Forall (λ q, ¬ has_id ident q) (jsonify <$> products).
Proof.
  intros Htruthy Hnone. apply Forall_fmap. eapply Forall_impl; [done|].
  intros q Hq Hid. by apply Hq, has_id_jsonify_inv.
Qed.

(** The successful POST, for the sequences below. *)
Lemma post_accepted (req : request) (now : Z) (s : store) (products : list value) :
  method req = "POST" →
  supplies (body req) "name" →
  supplies (body req) "price" →
  supplies (body req) "category" →
  converts (field (body req) "price") →
  converts (field (body req) "offerPrice") →
  converts (field (body req) "category") →
  converts (field (body req) "description") →
  readProductsFromBlob s = Ok products →
  put_error s = None →
  ∃ created s',
    newProduct now (or_else (body req) (obj [])) = Ok created ∧
    handler req now s = (send 201 created, s') ∧
    is_record created ∧
    field (jsonify created) "id" = VStr (Z_toString now) ∧
    readProductsFromBlob s' = Ok ((jsonify <$> products) ++ [jsonify created]) ∧
    put_error s' = None.
Proof.
  intros Hmethod Hname Hprice Hcategory Hcp Hco Hcc Hcd Hread Hput.
  destruct (newProduct_total now (body req) Hcp Hco Hcc Hcd) as [created Hlit].
  destruct (write_accepted (products ++ [created]) s Hput) as [s' Hwrite].
  pose proof (read_after_write _ _ _ Hwrite) as Hreread.
  rewrite fmap_app in Hreread.
  destruct (newProduct_fields _ _ _ Hlit)
    as (? & ? & ? & ? & fields & Hshape & _ & _ & Hid & _).
  exists created, s'. split_and!; try done.
  - rewrite (handler_post _ _ _ _ Hmethod Hread), post_unfold.
    unfold supplies in *. rewrite Hname, Hprice, Hcategory. simpl.
    rewrite Hlit. simpl. by rewrite Hwrite.
  - by eexists.
  - subst created. apply jsonify_keeps_string; [done|by eexists].
  - exact (write_leaves_writable _ _ _ Hwrite).
Qed.

(** The successful DELETE, for the sequences below. *)
Lemma delete_accepted (req : request) (now : Z) (s : store) (products : list value) :
  method req = "DELETE" →
  supplies (body req) "id" →
  readProductsFromBlob s = Ok products →
  Forall (λ q, nullish q = false) products →
  put_error s = None →
  ∃ s',
    handler req now s = (send 200 (obj [("ok", VBool true)]), s') ∧
    readProductsFromBlob s' =
      Ok (jsonify <$> filter (λ p, ¬ has_id (field (body req) "id") p) products) ∧
    put_error s' = None.
Proof.
  intros Hmethod Hid Hread Hrecords Hput.
  destruct (write_accepted
              (filter (λ p, ¬ has_id (field (body req) "id") p) products) s Hput)
    as [s' Hwrite].
  exists s'. split_and!.
  - rewrite (handler_delete _ _ _ _ Hmethod Hread), delete_unfold.
    unfold supplies in Hid. rewrite Hid. simpl.
    rewrite (filter_other_ids _ _ Hrecords). simpl. by rewrite Hwrite.
  - exact (read_after_write _ _ _ Hwrite).
  - exact (write_leaves_writable _ _ _ Hwrite).
Qed.

(** On a store that was last written by an upload of records, the DELETE of
    an id that no record has is answered 200 and the next read returns what
    the read before it returned: the stored catalog is not altered. *)
Theorem delete_absent_keeps_catalog (req : request) (now : Z)
    (s0 s : store) (products : list value) :
  writeProductsToBlob products s0 = Ok s →
  Forall is_record products →
  method req = "DELETE" →
  supplies (body req) "id" →
  Forall (λ p, ¬ has_id (field (body req) "id") p) products →
  status (handler req now s).1 = 200%Z ∧
  readProductsFromBlob (handler req now s).2 = readProductsFromBlob s.
Proof.
  intros Hwrite Hrecords Hmethod Hid Hnone.
  pose proof (read_after_write _ _ _ Hwrite) as Hread.
  destruct (delete_accepted req now s _ Hmethod Hid Hread
              (jsonify_records _ Hrecords) (write_leaves_writable _ _ _ Hwrite))
    as (s' & -> & Hreread & _).
  split; [done|]. simpl. rewrite Hreread, Hread.
  rewrite (filter_keeps_all _ _ (jsonify_without_id _ _ Hid Hnone)).
  by rewrite jsonify_list_idempotent.
Qed.

(** After a DELETE has been answered 200, a PUT for the same id is answered
    404: no record with that id is left to update. *)
Theorem put_after_delete_not_found (del upd : request) (now later : Z)
    (s : store) (products : list value) :
  readProductsFromBlob s = Ok products →
  Forall is_record products →
  put_error s = None →
  method del = "DELETE" →
  supplies (body del) "id" →
  method upd = "PUT" →
  field (body upd) "id" = field (body del) "id" →
  typeof (field (body upd) "updates") = "object" →
  handler upd later (handler del now s).2 =
    (send 404 (error_body "Not found"), (handler del now s).2).
Proof.
  intros Hread Hrecords Hput Hdel Hid Hupd Hsame Hupdates.
  assert (Forall (λ q, nullish q = false) products) as Hnonnull.
  { eapply Forall_impl; [done|]. apply record_not_nullish. }
  destruct (delete_accepted del now s _ Hdel Hid Hread Hnonnull Hput)
    as (s' & -> & Hreread & _). simpl.
  assert (Forall is_record
            (filter (λ p, ¬ has_id (field (body del) "id") p) products)) as Hkept.
  { apply Forall_forall. intros p [_ Hp]%list_elem_of_filter.
    rewrite Forall_forall in Hrecords. auto. }
  eapply (put_unknown_id_not_found upd later s' _ Hupd);
    [|exact Hupdates|exact Hreread| |].
  - unfold supplies. by rewrite Hsame.
  - by apply jsonify_records.
  - rewrite Hsame. apply jsonify_without_id; [done|].
    apply Forall_forall. by intros p [Hp _]%list_elem_of_filter.
Qed.

(** A POST followed by the DELETE of the id it returned leaves the catalog
    as it was read before the POST (in serialised form), provided no record
    had that id already. *)
Theorem delete_after_post_restores (add del : request) (now later : Z)
    (s : store) (products : list value) :
  method add = "POST" →
  supplies (body add) "name" →
  supplies (body add) "price" →
  supplies (body add) "category" →
  converts (field (body add) "price") →
  converts (field (body add) "offerPrice") →
  converts (field (body add) "category") →
  converts (field (body add) "description") →
  readProductsFromBlob s = Ok products →
  Forall is_record products →
  Forall (λ p, ¬ has_id (VStr (Z_toString now)) p) products →
  put_error s = None →
  method del = "DELETE" →
  field (body del) "id" = VStr (Z_toString now) →
  status (handler del later (handler add now s).2).1 = 200%Z ∧
  readProductsFromBlob (handler del later (handler add now s).2).2
    = Ok (jsonify <$> products).
Proof.
  intros Hadd Hname Hprice Hcategory Hcp Hco Hcc Hcd Hread Hrecords Hfresh Hput
    Hdel Hid.
  destruct (post_accepted add now s products) as
    (created & s1 & _ & -> & Hcreated & Hcid & Hread1 & Hput1); try done.
  simpl.
  assert (truthy (VStr (Z_toString now)) = true) as Htruthy.
  { simpl. apply negb_true_iff, String.eqb_neq, Z_toString_nonempty. }
  assert (Forall (λ q, nullish q = false)
            ((jsonify <$> products) ++ [jsonify created])) as Hnonnull.
  { apply Forall_app. split; [by apply jsonify_records|].
    repeat constructor. by apply record_not_nullish, jsonify_record. }
  assert (supplies (body del) "id") as Hsupplied.
  { unfold supplies. by rewrite Hid. }
  destruct (delete_accepted del later s1 _ Hdel Hsupplied Hread1 Hnonnull Hput1)
    as (s2 & -> & Hread2 & _).
  split; [done|]. simpl. rewrite Hread2, Hid, filter_app.
  rewrite (filter_keeps_all _ _ (jsonify_without_id _ _ Htruthy Hfresh)).
  rewrite filter_cons_False, filter_nil, app_nil_r.
  - by rewrite jsonify_list_idempotent.
  - intros Hnot. apply Hnot. unfold has_id. rewrite Hcid. simpl.
    apply String.eqb_refl.
Qed.

(** The handler does not check that an id is new: the same POST handled
    twice within one millisecond stores two records with the same id, the
    last two of the catalog. *)
Theorem post_twice_duplicates_id (req : request) (now : Z) (s : store)
    (products : list value) :
  method req = "POST" →
  supplies (body req) "name" →
  supplies (body req) "price" →
  supplies (body req) "category" →
  converts (field (body req) "price") →
  converts (field (body req) "offerPrice") →
  converts (field (body req) "category") →
  converts (field (body req) "description") →
  readProductsFromBlob s = Ok products →
  put_error s = None →
  ∃ stored,
    readProductsFromBlob (handler req now (handler req now s).2).2
      = Ok ((jsonify <$> products) ++ [stored; stored]) ∧
    has_id (VStr (Z_toString now)) stored.
Proof.
  intros Hmethod Hname Hprice Hcategory Hcp Hco Hcc Hcd Hread Hput.
  destruct (post_accepted req now s products) as
    (created & s1 & Hlit & -> & _ & Hid & Hread1 & Hput1); try done.
  simpl.
  destruct (post_accepted req now s1 _ Hmethod Hname Hprice Hcategory
              Hcp Hco Hcc Hcd Hread1 Hput1)
    as (again & s2 & Hlit2 & -> & _ & _ & Hread2 & _).
  simpl. assert (again = created) as -> by congruence.
  exists (jsonify created). split.
  - rewrite Hread2, fmap_app, jsonify_list_idempotent. simpl.
    by rewrite jsonify_idempotent, <-app_assoc.
  - unfold has_id. rewrite Hid. simpl. apply String.eqb_refl.
Qed.

End Sequences.

Section Handler_examples.
Import Js Blob Api Spec Ascii_builtins Example.

(** The theorem at work: the backup copy listed first is passed over. *)
Lemma read_returns_stored_array_witness :
  readProductsFromBlob crowded_store = Ok [ring; stud].
Proof.
  apply (read_returns_stored_array crowded_store
           (MkBlob BLOB_NAME (address BLOB_NAME))
           (MkResponse true (Ok (VArr [ring; stud])))).
  - exists [ MkBlob "products.json.bak" (address "products.json.bak");
             MkBlob BLOB_NAME (address BLOB_NAME) ], 1.
    split; reflexivity.
  - reflexivity.
  - reflexivity.
  - reflexivity.
Defined.

(** The theorem at work: the bangle, whose [offerPrice] is [undefined], is
    stored without that property and stays so when written back. *)
Lemma rewrite_keeps_snapshot_witness :
  ∃ s1 s2,
    writeProductsToBlob [bangle] empty_store = Ok s1 ∧
    writeProductsToBlob [jsonify bangle] s1 = Ok s2 ∧
    readProductsFromBlob s2 = Ok [jsonify bangle].
Proof.
  destruct (write_accepted [bangle] empty_store eq_refl) as [s1 Hfirst].
  destruct (write_accepted [jsonify bangle] s1 (write_leaves_writable _ _ _ Hfirst))
    as [s2 Hsecond].
  exists s1, s2. split; [exact Hfirst|]. split; [exact Hsecond|].
  apply (rewrite_keeps_snapshot [bangle] [jsonify bangle] empty_store s1 s2);
    [exact Hfirst| |exact Hsecond].
  exact (read_after_write _ _ _ Hfirst).
Defined.

(** The theorem at work: [get] is not [GET]. *)
Lemma other_method_not_allowed_witness :
  handler lowercase_get instant stocked_store =
    (send 405 (error_body "Method Not Allowed"), stocked_store).
Proof.
  apply (other_method_not_allowed lowercase_get instant stocked_store).
  intros Hin. repeat (apply elem_of_cons in Hin as [Heq|Hin]; [discriminate Heq|]).
  by apply elem_of_nil in Hin.
Defined.

(** The theorem at work: a DELETE without a body. *)
Lemma delete_without_id_rejected_witness :
  handler delete_nothing instant stocked_store =
    (send 400 (error_body "id is required"), stocked_store).
Proof.
  apply (delete_without_id_rejected delete_nothing instant stocked_store).
  - reflexivity.
  - vm_compute. discriminate.
Defined.

(** The theorem at work: without a token the DELETE of a stored id is no
    success and the store stays as it is. *)
Lemma no_success_without_upload_witness :
  (handler delete_ring instant tokenless_store).2 = tokenless_store ∧
  status (handler delete_ring instant tokenless_store).1 ≠ 200%Z.
Proof.
  destruct (no_success_without_upload delete_ring instant tokenless_store no_token)
    as [Hstore Hstatus]; [reflexivity|].
  split; [exact Hstore|]. apply Hstatus; discriminate.
Defined.

(** The theorem at work: the message of the store reaches the client. *)
Lemma post_upload_rejected_witness :
  handler post_bangle instant tokenless_store =
    (send 500 (error_body "Vercel Blob: No token found."), tokenless_store).
Proof.
  apply (post_upload_rejected post_bangle instant tokenless_store no_token);
    [reflexivity | reflexivity | reflexivity | reflexivity
    | by eexists | by eexists | by eexists | by eexists | reflexivity].
Defined.

(** The theorem at work: deleting the id "7" from a catalog just written. *)
Lemma delete_absent_keeps_catalog_witness :
  ∃ s, writeProductsToBlob [ring; stud] empty_store = Ok s ∧
       readProductsFromBlob (handler delete_absent instant s).2
         = readProductsFromBlob s.
Proof.
  destruct (write_accepted [ring; stud] empty_store eq_refl) as [s Hwrite].
  exists s. split; [exact Hwrite|].
  apply (delete_absent_keeps_catalog delete_absent instant empty_store s [ring; stud]).
  - exact Hwrite.
  - repeat constructor; by eexists.
  - reflexivity.
  - reflexivity.
  - repeat constructor; vm_compute; discriminate.
Defined.

(** The theorem at work: the ring is deleted, then its price is updated. *)
Lemma put_after_delete_not_found_witness :
  status (handler put_price instant (handler delete_ring instant stocked_store).2).1
    = 404%Z.
Proof.
  rewrite (put_after_delete_not_found delete_ring put_price instant instant
             stocked_store [ring; stud]);
    [reflexivity | reflexivity | repeat constructor; by eexists | reflexivity
    | reflexivity | reflexivity | reflexivity | reflexivity | reflexivity].
Defined.

(** The theorem at work: the bangle is added to the two records and deleted
    again. *)
Lemma delete_after_post_restores_witness :
  readProductsFromBlob
    (handler delete_bangle instant (handler post_bangle instant stocked_store).2).2
  = Ok [jsonify ring; jsonify stud].
Proof.
  apply (delete_after_post_restores post_bangle delete_bangle instant instant
           stocked_store [ring; stud]);
    [reflexivity | reflexivity | reflexivity | reflexivity
    | by eexists | by eexists | by eexists | by eexists
    | reflexivity | repeat constructor; by eexists
    | repeat constructor; vm_compute; discriminate
    | reflexivity | reflexivity | reflexivity].
Defined.

(** The theorem at work: two bangles with one id. *)
Lemma post_twice_duplicates_id_witness :
  ∃ stored,
    readProductsFromBlob
      (handler post_bangle instant (handler post_bangle instant empty_store).2).2
    = Ok [stored; stored].
Proof.
  destruct (post_twice_duplicates_id post_bangle instant empty_store [])
    as (stored & Hread & _);
    [reflexivity | reflexivity | reflexivity | reflexivity
    | by eexists | by eexists | by eexists | by eexists
    | reflexivity | reflexivity |].
  exists stored. exact Hread.
Defined.

(** The lemma at work: after the price of the ring is updated the catalog
    still consists of records. *)
Lemma handler_keeps_records_witness :
  ∃ products',
    readProductsFromBlob (handler put_price instant stocked_store).2 = Ok products' ∧
    Forall is_record products'.
Proof.
  apply (handler_keeps_records put_price instant stocked_store [ring; stud]).
  - reflexivity.
  - repeat constructor; by eexists.
Defined.

End Handler_examples.

(** * Further properties of the client state *)

Section Client_lists.
Import Js Spec Client.

(** Deleting removes exactly the products with the id, the others keeping
    their order; a lookup of the id then finds nothing; and deleting the
    same id again changes nothing. *)
Theorem deleteProduct_removes (ident : string) (prev : list Product) :
  selected (λ p, id p ≠ ident) prev (deleteProduct ident prev) ∧
  getProductById (deleteProduct ident prev) ident = None ∧
  deleteProduct ident (deleteProduct ident prev) = deleteProduct ident prev.
Proof.
  unfold deleteProduct, getProductById.
  induction prev as [|p prev (IHsel & IHfind & IHagain)]; [repeat split; constructor|].
  simpl. destruct (String.eqb_spec (id p) ident) as [Hp|Hp]; simpl.
  - split_and!; [|done|done]. constructor; [|done]. by intros [].
  - apply String.eqb_neq in Hp as Hneq. rewrite Hneq. simpl.
    split_and!; [by constructor|done|by rewrite IHagain].
Qed.

(** Looking a product up after an update.  When the update does not touch
    the id, the lookup of the updated id returns the merged record of the
    product it returned before; the lookup of any other id is unchanged.
    When the update gives the product another id, the old id finds
    nothing. *)
Theorem lookup_after_update (ident : string) (updates : PartialProduct)
    (prev : list Product) :
  (new_id updates = None →
     getProductById (updateProduct ident updates prev) ident
       = (λ p, merge p updates) <$> getProductById prev ident ∧
     ∀ other, other ≠ ident →
       getProductById (updateProduct ident updates prev) other
         = getProductById prev other) ∧
  (∀ renamed, new_id updates = Some renamed → renamed ≠ ident →
     getProductById (updateProduct ident updates prev) ident = None).
Proof.
  unfold getProductById, updateProduct. split.
  - intros Hkeeps. split.
    + induction prev as [|p prev IH]; [done|]. simpl.
      destruct (String.eqb_spec (id p) ident) as [Hp|Hp]; simpl.
      * by rewrite Hkeeps, Hp, String.eqb_refl.
      * apply String.eqb_neq in Hp. by rewrite Hp.
    + intros other Hother. induction prev as [|p prev IH]; [done|]. simpl.
      destruct (String.eqb_spec (id p) ident) as [Hp|Hp]; simpl.
      * rewrite Hkeeps, Hp. simpl. apply not_eq_sym, String.eqb_neq in Hother.
        by rewrite Hother.
      * by rewrite IH.
  - intros renamed Hrenames Hrenamed. induction prev as [|p prev IH]; [done|].
    simpl. destruct (String.eqb_spec (id p) ident) as [Hp|Hp]; simpl.
    + rewrite Hrenames. simpl. apply String.eqb_neq in Hrenamed. by rewrite Hrenamed.
    + apply String.eqb_neq in Hp. by rewrite Hp.
Qed.

Lemma Set_add_first (x : string) : Set_add [] x = [x].
Proof.
  unfold Set_add. by rewrite bool_decide_eq_false_2 by apply not_elem_of_nil.
Qed.

Lemma Set_fold (xs acc : list string) :
  fold_left Set_add xs acc = acc ++ filter (λ x, x ∉ acc) (Array_from_Set xs).
Proof.
  unfold Array_from_Set. revert acc.
  induction xs as [|x xs IH]; intros acc; simpl.
  { by rewrite filter_nil, app_nil_r. }
  rewrite Set_add_first, (IH [x]). simpl.
  unfold Set_add. destruct (decide (x ∈ acc)) as [Hx|Hx].
  - rewrite bool_decide_eq_true_2 by done. rewrite IH.
    rewrite filter_cons_False by (by intros []). f_equal.
    rewrite list_filter_filter. apply list_filter_iff.
    intros y. rewrite list_elem_of_singleton. split; [|by intros []].
    intros Hy. split; [done|]. by intros ->.
  - rewrite bool_decide_eq_false_2 by done. rewrite IH, <-app_assoc. simpl.
    rewrite filter_cons_True by done. do 2 f_equal.
    rewrite list_filter_filter. apply list_filter_iff.
    intros y. rewrite not_elem_of_app, list_elem_of_singleton. tauto.
Qed.

(** The first value comes first, and the rest follows without it. *)
Lemma Array_from_Set_cons (x : string) (xs : list string) :
  Array_from_Set (x :: xs) = x :: filter (λ y, y ≠ x) (Array_from_Set xs).
Proof.
  unfold Array_from_Set at 1. simpl.
  rewrite Set_add_first, Set_fold. simpl. f_equal. apply list_filter_iff.
  intros y. by rewrite list_elem_of_singleton.
Qed.

Lemma Array_from_Set_elements (xs : list string) (c : string) :
  c ∈ Array_from_Set xs ↔ c ∈ xs.
Proof.
  induction xs as [|x xs IH]; [done|].
  rewrite Array_from_Set_cons, !elem_of_cons, list_elem_of_filter, IH.
  destruct (decide (c = x)); tauto.
Qed.

Lemma Array_from_Set_NoDup (xs : list string) : NoDup (Array_from_Set xs).
Proof.
  induction xs as [|x xs IH]; [constructor|].
  rewrite Array_from_Set_cons. constructor; [|by apply NoDup_filter].
  rewrite list_elem_of_filter. by intros [Hx _].
Qed.

(** The category list names every category of the products once, in the
    order in which the categories first occur: the category of the first
    product, then the categories of the others without it. *)
Theorem categories_distinct_in_order (products : list Product) :
  NoDup (categories products) ∧
  (∀ c, c ∈ categories products ↔ ∃ p, p ∈ products ∧ category p = c) ∧
  (∀ p rest, products = p :: rest →
     categories products
       = category p :: filter (λ c, c ≠ category p) (categories rest)).
Proof.
  unfold categories. split_and!.
  - apply Array_from_Set_NoDup.
  - intros c. rewrite Array_from_Set_elements.
    change (map category products) with (category <$> products).
    rewrite list_elem_of_fmap.
    split; intros (p & Hp1 & Hp2); exists p; by split.
  - intros p rest ->. simpl. apply Array_from_Set_cons.
Qed.

Lemma filter_true {A} (f : A → bool) (xs : list A) :
  List.filter f xs = filter (λ x, f x = true) xs.
Proof.
  induction xs as [|x xs IH]; [done|]. simpl. rewrite filter_cons, IH.
  by destruct (f x).
Qed.

(** The products of a category are the products whose category is exactly
    that text, in their order; and a category is in the category list just
    when some product is found under it. *)
Theorem categories_and_their_products (products : list Product) (wanted : string) :
  selected (λ p, category p = wanted) products
    (getProductsByCategory products wanted) ∧
  (wanted ∈ categories products ↔ getProductsByCategory products wanted ≠ []).
Proof.
  split.
  - unfold getProductsByCategory.
    induction products as [|p products IH]; [constructor|]. simpl.
    destruct (String.eqb_spec (category p) wanted); by constructor.
  - destruct (categories_distinct_in_order products) as (_ & -> & _).
    unfold getProductsByCategory. rewrite filter_true. split.
    + intros (p & Hp & Hcategory) Hempty.
      apply (filter_nil_not_elem_of _ _ p Hempty); [|done].
      by apply String.eqb_eq.
    + intros Hsome.
      destruct (filter _ products) as [|p found] eqn:Hfound; [done|].
      assert (p ∈ filter (λ x, String.eqb (category x) wanted = true) products)
        as [Hp Hin]%list_elem_of_filter by (rewrite Hfound; left).
      exists p. split; [done|]. by apply String.eqb_eq.
Qed.

(** Adding always appends exactly one product and keeps the others.  The
    product appended is the record of the server when the response is ok and
    its body parses; when the request is rejected, is answered with a status
    that is not ok, or has a body that does not parse, it is the data given,
    under the non-empty decimal text of the time as its id. *)
Theorem addProduct_appends_one (posted : result answer) (now : Z)
    (productData : ProductData) (prev : list Product) :
  (∃ added, addProduct posted now productData prev = prev ++ [added] ∧
     (added = with_id productData (Z_toString now) ∨
      posted = Ok (MkAnswer true (Ok added)))) ∧
  (∀ created, posted = Ok (MkAnswer true (Ok created)) →
     addProduct posted now productData prev = prev ++ [created]) ∧
  ((∀ created, posted ≠ Ok (MkAnswer true (Ok created))) →
     addProduct posted now productData prev
       = prev ++ [with_id productData (Z_toString now)] ∧
     id (with_id productData (Z_toString now)) ≠ "").
Proof.
  unfold addProduct. split_and!.
  - destruct posted as [[[] [created|]]|]; simpl; eauto.
  - by intros created ->.
  - intros Hlocal. split; [|apply Z_toString_nonempty].
    destruct posted as [[[] [created|]]|]; simpl; try done.
    by destruct (Hlocal created).
Qed.

(** A product added locally is found under its new id unless an older
    product already has that id: the lookup returns the first product with
    the id, so the older one hides the new one. *)
Theorem lookup_after_local_add (e : exn) (now : Z) (productData : ProductData)
    (prev : list Product) :
  getProductById (addProduct (Throw e) now productData prev) (Z_toString now)
  = Some (default (with_id productData (Z_toString now))
            (getProductById prev (Z_toString now))).
Proof.
  unfold addProduct, getProductById. simpl.
  induction prev as [|p prev IH]; simpl.
  - by rewrite String.eqb_refl.
  - by destruct (String.eqb (id p) (Z_toString now)).
Qed.

End Client_lists.

Section Client_search.
Import Js Spec Client.
Context `{!Builtins}.

(** The empty query finds every product: when lower-casing maps the empty
    text to itself, as it does in the language, [searchProducts] returns the
    whole list. *)
Theorem search_empty_query (products : list Product) :
  toLowerCase "" = "" →
  searchProducts products "" = products.
Proof.
  intros Hempty. unfold searchProducts. rewrite Hempty.
  induction products as [|p products IH]; [done|]. simpl.
  assert (includes (toLowerCase (name p)) "" = true) as ->.
  { apply includes_occurs. by exists "", (toLowerCase (name p)). }
  simpl. by rewrite IH.
Qed.

End Client_search.

Section Client_list_examples.
Import Js Spec Client Ascii_builtins Example.

(** The theorem at work: marking the stud as sold out. *)
Lemma lookup_after_update_witness :
  getProductById (updateProduct "3" sold_out initialProducts) "3"
    = Some (merge korean_stud sold_out) ∧
  getProductById (updateProduct "3" sold_out initialProducts) "1"
    = getProductById initialProducts "1".
Proof.
  destruct (lookup_after_update "3" sold_out initialProducts) as [Hkeeps _].
  destruct (Hkeeps eq_refl) as [Hsame Hothers].
  split; [rewrite Hsame; reflexivity|]. apply Hothers. discriminate.
Defined.

(** The theorem at work on the initial products. *)
Lemma categories_distinct_in_order_witness :
  categories initialProducts = ["necklaces"; "earrings"].
Proof.
  destruct (categories_distinct_in_order initialProducts) as (_ & _ & Hfirst).
  rewrite (Hfirst _ (drop 1 initialProducts) eq_refl). reflexivity.
Defined.

(** The theorem at work: the server is unreachable. *)
Lemma addProduct_appends_one_witness :
  addProduct (Throw (Exn "Failed to fetch")) instant
    (MkData "Bangle" (integer 1299) None [] "bangles" "" (integer 4))
    initialProducts
  = initialProducts
    ++ [MkProduct "1700000000000" "Bangle" (integer 1299) None [] "bangles" ""
          (integer 4)].
Proof.
  destruct (addProduct_appends_one (Throw (Exn "Failed to fetch")) instant
              (MkData "Bangle" (integer 1299) None [] "bangles" "" (integer 4))
              initialProducts) as (_ & _ & Hlocal).
  destruct Hlocal as [Hadded _]; [discriminate|]. exact Hadded.
Defined.

(** The theorem at work with ASCII lower-casing. *)
Lemma search_empty_query_witness :
  searchProducts initialProducts "" = initialProducts.
Proof. apply (search_empty_query initialProducts). reflexivity. Defined.

End Client_list_examples.

(** * Properties of the provider's start-up *)

Section Start_up.
Import Js Blob Client Provider.

Lemma from_server_nothing (b : browser) (cancelled : bool) :
  serves_nothing b → from_server b cancelled = None.
Proof.
  intros Hnothing. unfold from_server, try_catch.
  destruct (fetch_url b (default_api b)) as [res|] eqn:Hfetch; [simpl|done].
  destruct (ok res) eqn:Hok; [simpl|done].
  destruct (json res) as [data|] eqn:Hjson; [simpl|done].
  destruct data as [| | | | |[|x xs]|]; try done.
  by destruct (Hnothing res x xs).
Qed.

Lemma from_server_cancelled (b : browser) : from_server b true = None.
Proof.
  unfold from_server, try_catch.
  destruct (fetch_url b (default_api b)) as [res|]; [simpl|done].
  destruct (ok res); [simpl|done].
  destruct (json res) as [data|]; [simpl|done].
  by destruct data as [| | | | |[|x xs]|].
Qed.

(** A non-empty array from the catalog address wins: unless the effect has
    been cancelled, it becomes the products and the state is marked as
    loaded from the server, whatever local storage holds. *)
Theorem load_prefers_server (b : browser) (res : response) (x : value)
    (xs : list value) (stored : storage) (cancelled_restore : bool) (st : state) :
  fetch_url b (default_api b) = Ok res →
  ok res = true →
  json res = Ok (VArr (x :: xs)) →
  products (load b stored false cancelled_restore st) = VArr (x :: xs) ∧
  loadedFromServer (load b stored false cancelled_restore st) = true.
Proof.
  intros Hfetch Hok Hjson. unfold load, from_server, try_catch.
  rewrite Hfetch. simpl. rewrite Hok, Hjson. done.
Qed.

(** Without a non-empty array from the server, local storage decides, and
    nothing checks what it holds: text that parses becomes the products
    whatever value it is, array or not; text that does not parse brings the
    bundled catalog back; no text leaves the products as they are.  The
    state is never marked as loaded from the server. *)
Theorem load_restores_storage (b : browser) (cancelled_fetch : bool) (st : state) :
  serves_nothing b →
  (∀ v, products (load b (Some (Ok v)) cancelled_fetch false st) = v) ∧
  (∀ e, products (load b (Some (Throw e)) cancelled_fetch false st) = bundled) ∧
  products (load b None cancelled_fetch false st) = products st ∧
  (∀ stored, loadedFromServer (load b stored cancelled_fetch false st)
             = loadedFromServer st).
Proof.
  intros Hnothing. unfold load.
  rewrite (from_server_nothing _ _ Hnothing). split_and!; try done.
  by intros [[]|].
Qed.

(** A cancelled effect changes neither the products nor the mark, whatever
    the server and local storage hold. *)
Theorem load_cancelled_keeps_products (b : browser) (stored : storage) (st : state) :
  products (load b stored true true st) = products st ∧
  loadedFromServer (load b stored true true st) = loadedFromServer st.
Proof.
  unfold load. rewrite from_server_cancelled. by destruct stored.
Qed.

(** The address in [/config.json] is adopted into the state but plays no
    part in the load itself: two pages that differ only in what
    [/config.json] answers end with the same products and the same mark. *)
Theorem config_does_not_move_catalog (b b' : browser) (stored : storage)
    (cancelled_fetch cancelled_restore : bool) (st : state) :
  VITE_API_BASE b = VITE_API_BASE b' →
  (∀ u, u ≠ "/config.json" → fetch_url b u = fetch_url b' u) →
  default_api b ≠ "/config.json" →
  products (load b stored cancelled_fetch cancelled_restore st)
    = products (load b' stored cancelled_fetch cancelled_restore st) ∧
  loadedFromServer (load b stored cancelled_fetch cancelled_restore st)
    = loadedFromServer (load b' stored cancelled_fetch cancelled_restore st).
Proof.
  intros Henv Hfetch Hdefault.
  assert (default_api b' = default_api b) as Hsame.
  { unfold default_api. by rewrite Henv. }
  assert (from_server b' cancelled_fetch = from_server b cancelled_fetch) as Hserver.
  { unfold from_server. by rewrite Hsame, (Hfetch _ Hdefault). }
  unfold load. rewrite Hserver.
  destruct (from_server b cancelled_fetch); [done|].
  destruct stored as [parsed|]; [|done]. by destruct cancelled_restore.
Qed.

(** The item that the persistence effect stores is restored by a later load
    that gets nothing from the server: the products come back as
    serialised. *)
Theorem persisted_products_restored (b : browser) (current : value)
    (cancelled_fetch : bool) (st : state) :
  serves_nothing b →
  current ≠ VUndefined →
  products (load b (persist current) cancelled_fetch false st) = jsonify current.
Proof.
  intros Hnothing Hdefined. unfold load, persist.
  rewrite (from_server_nothing _ _ Hnothing). by destruct current.
Qed.

Lemma bundled_serialised : jsonify bundled = bundled.
Proof. vm_compute. reflexivity. Qed.

(** Mounting never restores an earlier session.  The persistence effect of
    the first render has replaced the item in local storage before [load]
    reads it, so when the server delivers no non-empty array the provider
    ends with the bundled catalog, in the state and in local storage,
    whatever local storage held before. *)
Theorem mount_forgets_cache (b : browser) (previous : storage)
    (cancelled_fetch cancelled_restore : bool) :
  serves_nothing b →
  products (mount b previous cancelled_fetch cancelled_restore).1 = bundled ∧
  (mount b previous cancelled_fetch cancelled_restore).2 = Some (Ok bundled).
Proof.
  intros Hnothing. unfold mount. simpl.
  assert (products (load b (persist bundled) cancelled_fetch cancelled_restore
                      (initial_state b)) = bundled) as ->.
  { unfold load. rewrite (from_server_nothing _ _ Hnothing).
    unfold persist. simpl. destruct cancelled_restore; [done|].
    simpl. apply bundled_serialised. }
  split; [done|]. unfold persist.
  change (match bundled with VUndefined => Throw (Exn "Unexpected token")
                        | _ => Ok (jsonify bundled) end)
    with (Ok (jsonify bundled) : result value).
  by rewrite bundled_serialised.
Qed.

End Start_up.

Section Start_up_examples.
Import Js Blob Client Provider Ascii_builtins Example.

Lemma offline_serves_nothing : serves_nothing offline.
Proof. intros res x xs Hfetch. discriminate Hfetch. Qed.

(** The theorem at work: the default address serves the two records. *)
Lemma load_prefers_server_witness :
  products (load plain_page (Some (Ok (VArr []))) false false
              (initial_state plain_page))
    = VArr [ring; stud].
Proof.
  apply (load_prefers_server plain_page
           (MkResponse true (Ok (VArr [ring; stud]))) ring [stud]);
    reflexivity.
Defined.

(** The theorem at work: offline, an item holding the text of an empty
    object becomes the products, although it is no array. *)
Lemma load_restores_storage_witness :
  products (load offline (Some (Ok (obj []))) false false (initial_state offline))
    = obj [].
Proof.
  destruct (load_restores_storage offline false (initial_state offline)
              offline_serves_nothing) as [Hparsed _].
  apply Hparsed.
Defined.

(** The theorem at work: the configuration names another API base, and the
    catalog still comes from the default address. *)
Lemma config_does_not_move_catalog_witness :
  products (load configured_page None false false (initial_state configured_page))
    = products (load plain_page None false false (initial_state configured_page)) ∧
  apiBase (load configured_page None false false (initial_state configured_page))
    = "https://api.example/products".
Proof.
  split; [|reflexivity].
  apply (config_does_not_move_catalog configured_page plain_page).
  - reflexivity.
  - intros u Hu. simpl. apply String.eqb_neq in Hu. by rewrite Hu.
  - discriminate.
Defined.

(** The theorem at work: the ring, persisted and restored offline. *)
Lemma persisted_products_restored_witness :
  products (load offline (persist (VArr [ring])) false false (initial_state offline))
    = VArr [jsonify ring].
Proof.
  apply (persisted_products_restored offline (VArr [ring]) false
           (initial_state offline) offline_serves_nothing).
  discriminate.
Defined.

(** The theorem at work: a session that had cached the ring starts offline
    with the bundled catalog. *)
Lemma mount_forgets_cache_witness :
  products (mount offline (Some (Ok (VArr [ring]))) false false).1 = bundled.
Proof.
  apply (mount_forgets_cache offline (Some (Ok (VArr [ring]))) false false
           offline_serves_nothing).
Defined.

End Start_up_examples.

(** * What a GET shows after an update, and what a POST keeps *)

Section After_update.
Import Js Blob Api Spec.
Context `{!Builtins}.

Lemma field_jsonify_object (fields : gmap string value) (key : string) :
  field (jsonify (VObj fields)) key =
    match fields !! key with
    | Some VUndefined | None => VUndefined
    | Some x => jsonify x
    end.
Proof.
  simpl. rewrite lookup_omap. destruct (fields !! key) as [x|]; [|done].
  by destruct x.
Qed.

(** The successful PUT, with what the store then holds. *)
Lemma put_accepted (req : request) (now : Z) (s : store)
    (products : list value) (idx : nat) (record : value) :
  method req = "PUT" →
  supplies (body req) "id" →
  typeof (field (body req) "updates") = "object" →
  readProductsFromBlob s = Ok products →
  Forall (λ q, nullish q = false) products →
  list_find (has_id (field (body req) "id")) products = Some (idx, record) →
  put_error s = None →
  ∃ s',
    handler req now s =
      (send 200 (spread record (field (body req) "updates")), s') ∧
    readProductsFromBlob s' =
      Ok (jsonify <$>
            <[idx := spread record (field (body req) "updates")]> products).
Proof.
  intros Hmethod Hid Hupdates Hread Hrecords Hfound Hput.
  pose proof (findIndex_located _ _ _ _ Hrecords Hfound) as Hfind.
  apply list_find_Some in Hfound as (Hidx & _ & _).
  destruct (write_accepted
              (<[idx := spread record (field (body req) "updates")]> products)
              s Hput) as [s' Hwrite].
  exists s'. split; [|exact (read_after_write _ _ _ Hwrite)].
  rewrite (handler_put _ _ _ _ Hmethod Hread), put_unfold.
  unfold supplies in Hid. rewrite Hid, Hupdates. simpl.
  rewrite Hfind. simpl.
  destruct (Z.eqb_spec (Z.of_nat idx) (-1)) as [Hneg|_]; [lia|].
  rewrite Nat2Z.id, (index_of_nat _ _ _ Hidx). by rewrite Hwrite.
Qed.

(** After a successful PUT the next read lists as many records as before;
    every other position holds the record it held, as serialised; and the
    updated position holds a record in which every property not named in
    the updates has the value it had, and every property named in them the
    new value, both as serialised. *)
Theorem read_after_put (req : request) (now : Z) (s : store)
    (products : list value) (idx : nat) (record : value) :
  method req = "PUT" →
  supplies (body req) "id" →
  typeof (field (body req) "updates") = "object" →
  readProductsFromBlob s = Ok products →
  Forall (λ q, nullish q = false) products →
  list_find (has_id (field (body req) "id")) products = Some (idx, record) →
  put_error s = None →
  ∃ listed updated,
    readProductsFromBlob (handler req now s).2 = Ok listed ∧
    length listed = length products ∧
    (∀ j p, j ≠ idx → products !! j = Some p → listed !! j = Some (jsonify p)) ∧
    listed !! idx = Some updated ∧
    (∀ key, ownProps (field (body req) "updates") !! key = None →
            field updated key = field (jsonify record) key) ∧
    (∀ key v, ownProps (field (body req) "updates") !! key = Some v →
              v ≠ VUndefined → field updated key = jsonify v).
Proof.
  intros Hmethod Hid Hupdates Hread Hrecords Hfound Hput.
  destruct (put_accepted _ now _ _ _ _ Hmethod Hid Hupdates Hread Hrecords
              Hfound Hput) as (s' & -> & Hreread).
  apply list_find_Some in Hfound as (Hidx & Hrecord & _).
  destruct (has_id_object _ _ Hid Hrecord) as (fields & pid & -> & _ & _).
  set (updates := field (body req) "updates") in *.
  exists (jsonify <$> <[idx := spread (VObj fields) updates]> products),
    (jsonify (spread (VObj fields) updates)).
  split_and!.
  - done.
  - by rewrite length_fmap, length_insert.
  - intros j p Hj Hp.
    by rewrite list_lookup_fmap, list_lookup_insert_ne, Hp.
  - rewrite list_lookup_fmap, list_lookup_insert_eq; [done|].
    by eapply lookup_lt_Some.
  - intros key Hkey. unfold spread. rewrite !field_jsonify_object.
    simpl. by rewrite lookup_union_r.
  - intros key v Hkey Hdefined. unfold spread. rewrite field_jsonify_object.
    rewrite (lookup_union_Some_l _ _ _ _ Hkey). by destruct v.
Qed.

(** A POST keeps what it knows and nothing else: whatever the body holds,
    the record of a 201 has exactly the eight properties of a product; its
    [name] is the value of the body as it is, not converted; its id is the
    text of the time, an [id] in the body being ignored. *)
Theorem post_keeps_known_fields (req : request) (now : Z) (s : store) :
  method req = "POST" →
  status (handler req now s).1 = 201%Z →
  ∃ fields,
    payload (handler req now s).1 = Some (VObj fields) ∧
    (∀ key, is_Some (fields !! key) ↔
            key ∈ ["id"; "name"; "price"; "offerPrice"; "images"; "category";
                   "description"; "stock"]) ∧
    fields !! "name" = Some (field (body req) "name") ∧
    fields !! "id" = Some (VStr (Z_toString now)).
Proof.
  intros Hmethod.
  destruct (read_total s) as [products Hread].
  rewrite (handler_post _ _ _ _ Hmethod Hread), post_unfold.
  destruct (negb _ || negb _ || negb _); [done|].
  destruct (newProduct now _) as [created|e] eqn:Hlit; [simpl|done].
  destruct (writeProductsToBlob _ s) as [s'|e]; [simpl|done].
  intros _.
  destruct (newProduct_inv _ _ _ Hlit)
    as (price & offerPrice & category & description & _ & _ & _ & _ & ->).
  eexists. split; [reflexivity|]. split_and!.
  - intros key. rewrite <-elem_of_dom, dom_list_to_map_L. simpl.
    rewrite !elem_of_union, !elem_of_singleton, !elem_of_cons, elem_of_nil.
    rewrite elem_of_empty. tauto.
  - by vm_compute.
  - by vm_compute.
Qed.

End After_update.

Section After_update_examples.
Import Js Blob Api Spec Ascii_builtins Example.

(** The theorem at work: after the price of the ring is updated, the stud
    and the name of the ring are listed as they were. *)
Lemma read_after_put_witness :
  ∃ listed updated,
    readProductsFromBlob (handler put_price instant stocked_store).2 = Ok listed ∧
    listed !! 1 = Some (jsonify stud) ∧
    listed !! 0 = Some updated ∧
    field updated "name" = VStr "Ring" ∧
    field updated "price" = num 699.
Proof.
  destruct (read_after_put put_price instant stocked_store [ring; stud] 0 ring)
    as (listed & updated & Hread & _ & Hothers & Hidx & Hold & Hnew);
    [reflexivity | reflexivity | reflexivity
    | reflexivity | repeat constructor | vm_compute; reflexivity | reflexivity |].
  exists listed, updated. split; [exact Hread|].
  split; [apply Hothers; [discriminate|reflexivity]|].
  split; [exact Hidx|]. split.
  - rewrite (Hold "name"); vm_compute; reflexivity.
  - rewrite (Hnew "price" (num 699)); [reflexivity|vm_compute; reflexivity|discriminate].
Defined.

(** The theorem at work: the bangle has its eight properties. *)
Lemma post_keeps_known_fields_witness :
  ∃ fields,
    payload (handler post_bangle instant empty_store).1 = Some (VObj fields) ∧
    fields !! "name" = Some (VStr "Bangle") ∧
    fields !! "updates" = None.
Proof.
  destruct (post_keeps_known_fields post_bangle instant empty_store)
    as (fields & Hpayload & Hkeys & Hname & _);
    [reflexivity | vm_compute; reflexivity |].
  exists fields. split; [exact Hpayload|]. split; [exact Hname|].
  apply eq_None_not_Some. rewrite Hkeys.
  intros Hin. repeat (apply elem_of_cons in Hin as [Heq|Hin]; [discriminate Heq|]).
  by apply elem_of_nil in Hin.
Defined.

End After_update_examples.
